(** * Employee-Appraisal: question index, sampler and scoring

    A shallow embedding of [tool.py] (index synchroniser, sampler), of the
    request validation and scoring of [api.py], and of the final page of the
    session UI in [app.py], together with the properties stated about them. *)

From Stdlib Require Import ZArith Strings.String Strings.Ascii.
From Stdlib Require Import DecimalString DecimalNat.
From Stdlib Require Import PrimFloat FloatOps SpecFloat Uint63.
From stdpp Require Import gmap strings list sorting.

(** ** Python string primitives used by the sources

    A [str] is modelled as a Rocq [string]; a character stands for the code
    point of the same number (U+0000 to U+00FF). *)
Module PyStr.

(** [str.isspace] on one code point below 256. *)
Definition isspace (c : ascii) : bool :=
  let n := nat_of_ascii c in
  ((9 <=? n) && (n <=? 13)) || ((28 <=? n) && (n <=? 32))
  || (n =? 133) || (n =? 160).

(** [str.lower] on one code point below 256: A-Z and the Latin-1 capitals
    (all of U+00C0..U+00DE but the multiplication sign) move up by 32. *)
Definition lower_char (c : ascii) : ascii :=
  let n := nat_of_ascii c in
  if ((65 <=? n) && (n <=? 90))
     || ((192 <=? n) && (n <=? 222) && negb (n =? 215))
  then ascii_of_nat (n + 32) else c.

Fixpoint lower (s : string) : string :=
  match s with
  | EmptyString => EmptyString
  | String c s' => String (lower_char c) (lower s')
  end.

Fixpoint lstrip (s : string) : string :=
  match s with
  | EmptyString => EmptyString
  | String c s' => if isspace c then lstrip s' else s
  end.

Fixpoint rstrip (s : string) : string :=
  match s with
  | EmptyString => EmptyString
  | String c s' =>
      match rstrip s' with
      | EmptyString => if isspace c then EmptyString else String c EmptyString
      | t => String c t
      end
  end.

(** [s.strip()] *)
Definition strip (s : string) : string := rstrip (lstrip s).

(** [s.replace(old, new)] for one-character [old] and [new]. *)
Fixpoint replace (old new : ascii) (s : string) : string :=
  match s with
  | EmptyString => EmptyString
  | String c s' =>
      String (if Ascii.eqb c old then new else c) (replace old new s')
  end.

(** [sep.join(l)] *)
Fixpoint join (sep : string) (l : list string) : string :=
  match l with
  | [] => EmptyString
  | s :: rest =>
      match rest with
      | [] => s
      | _ => s +:+ sep +:+ join sep rest
      end
  end.

(** [s.startswith(p)] *)
Fixpoint startswith (p s : string) : bool :=
  match p with
  | EmptyString => true
  | String a p' =>
      match s with
      | EmptyString => false
      | String b s' => Ascii.eqb a b && startswith p' s'
      end
  end.

(** [s.split(sep)] for a non-empty [sep]: the text is cut at the leftmost
    occurrences of [sep], which do not overlap.  [skip] counts the
    characters of an occurrence that are still to be passed over. *)
Fixpoint split_go (sep : string) (skip : nat) (s : string) : list string :=
  match s with
  | EmptyString => [EmptyString]
  | String c s' =>
      match skip with
      | S k => split_go sep k s'
      | O =>
          if startswith sep s
          then EmptyString :: split_go sep (String.length sep - 1) s'
          else match split_go sep 0 s' with
               | piece :: rest => String c piece :: rest
               | [] => [String c EmptyString]
               end
      end
  end.

Definition split (sep s : string) : list string := split_go sep 0 s.

(** [sub in s] *)
Fixpoint contains (sub s : string) : bool :=
  startswith sub s ||
  match s with
  | EmptyString => false
  | String _ s' => contains sub s'
  end.

(** [s.endswith(c)] for a one-character [c]. *)
Fixpoint endswith (c : ascii) (s : string) : bool :=
  match s with
  | EmptyString => false
  | String a EmptyString => Ascii.eqb a c
  | String _ s' => endswith c s'
  end.

(** [str(n)] (also [f"{n}"]) for a non-negative [int]. *)
Definition str_of_nat (n : nat) : string :=
  NilEmpty.string_of_uint (Nat.to_uint n).

End PyStr.

(** ** Data model *)

(** One question of [knowledge_base.json]. *)
Record QuestionRecord := mkQuestion {
  question : string;
  options : list string;
  answer : string
}.

(** [KNOWLEDGE_BASE]: the loaded JSON object, a [dict] from role to the list
    of its questions, in insertion order. *)
Definition QuestionBank := list (string * list QuestionRecord).

(** The metadata [dict] stored with every entry of the collection. *)
Record Meta := mkMeta {
  m_role : string;
  m_full_question : string;
  m_options : string;
  m_answer : string
}.

(** One entry of the collection: id, embedded document text and metadata. *)
Record IndexEntry := mkEntry {
  e_id : string;
  e_document : string;
  e_meta : Meta
}.

Global Instance QuestionRecord_eq_dec : EqDecision QuestionRecord.
Proof. solve_decision. Defined.
Global Instance Meta_eq_dec : EqDecision Meta.
Proof. solve_decision. Defined.
Global Instance IndexEntry_eq_dec : EqDecision IndexEntry.
Proof. solve_decision. Defined.

(** ** Storage encoding of option lists and entry ids ([tool.py]) *)

Definition DELIM : string := "||".

(** ["||".join(q["options"])] *)
Definition serialize_options (opts : list string) : string :=
  PyStr.join DELIM opts.

(** [meta.get("options", "").split("||")] *)
Definition deserialize_options (s : string) : list string :=
  PyStr.split DELIM s.

(** [f"{role.replace(' ', '_')}_{i}"] *)
Definition make_id (role : string) (i : nat) : string :=
  PyStr.replace " " "_" role +:+ "_" +:+ PyStr.str_of_nat i.


(** ** Exceptions and results *)

Inductive exn :=
  | ValueError (msg : string)
  | DuplicateIDError
  | ExternalError (msg : string).

Inductive result (A : Type) :=
  | Ok (a : A)
  | Raise (e : exn).
Arguments Ok {A} a.
Arguments Raise {A} e.

Global Instance result_ret : MRet result := λ A a, Ok a.

Global Instance result_bind : MBind result := λ A B k r,
  match r with
  | Ok a => k a
  | Raise e => Raise e
  end.

Global Instance exn_eq_dec : EqDecision exn.
Proof. solve_decision. Defined.

(** ** The persistent collection (chromadb / langchain [Chroma]), as the
    sources use it

    The client holds at most one collection, ["appraisal_questions"]; a
    collection lists its entries in insertion order and is keyed by id. *)
Module Chroma.

Abbreviation collection := (list IndexEntry).

(** The persistent client: [None] while the collection does not exist. *)
Abbreviation client := (option collection).

(** [client.get_collection(name=...)]: [ValueError] when it is missing. *)
Definition get_collection (c : client) : result collection :=
  match c with
  | Some col => Ok col
  | None => Raise (ValueError "Collection appraisal_questions does not exist.")
  end.

(** [client.delete_collection(name=...)] *)
Definition delete_collection (c : client) : client := None.

(** [Chroma(client=..., collection_name=...)]: get or create. *)
Definition open_store (c : client) : collection := default [] c.

(** [collection.count()] *)
Definition count (col : collection) : nat := length col.

(** The order in which the store hands out entries: by the text of their
    ids, compared code point by code point. *)
Definition id_le (e1 e2 : IndexEntry) : Prop := String.le (e_id e1) (e_id e2).

Global Instance id_le_dec : RelDecision id_le.
Proof. intros e1 e2. unfold id_le. apply _. Defined.

(** [collection.get(where={"role": role})]: the entries whose metadata has
    that role, in the order of their ids (not the order of insertion). *)
Definition get_where_role (role : string) (col : collection) : list IndexEntry :=
  merge_sort id_le (filter (λ e, m_role (e_meta e) = role) col).

Definition upsert (col : collection) (e : IndexEntry) : collection :=
  if bool_decide (e_id e ∈ e_id <$> col)
  then (λ e', if bool_decide (e_id e' = e_id e) then e else e') <$> col
  else col ++ [e].

(** [add_texts(texts, metadatas, ids)]: one upsert of the whole batch; the
    id list must be non-empty and free of duplicates. *)
Definition add_texts (batch : list IndexEntry) (col : collection)
  : result collection :=
  match batch with
  | [] => Raise (ValueError "Expected IDs to be a non-empty list")
  | _ =>
      if bool_decide (NoDup (e_id <$> batch))
      then Ok (foldl upsert col batch)
      else Raise DuplicateIDError
  end.

End Chroma.

(** ** Index synchroniser: [setup_knowledge_base] ([tool.py]) *)

(** The lines the function prints. *)
Inductive Msg :=
  | MsgRolesMismatch
  | MsgNotFound
  | MsgPopulating
  | MsgPopulationComplete
  | MsgUpToDate.

Global Instance Msg_eq_dec : EqDecision Msg.
Proof. solve_decision. Defined.

(** The body of [for i, q in enumerate(questions)] for one role. *)
Definition entries_of_role (role : string) (questions : list QuestionRecord)
  : list IndexEntry :=
  imap (λ i q,
          mkEntry (make_id role i) (question q)
            (mkMeta role (question q) (serialize_options (options q))
               (answer q)))
       questions.

(** [documents, metadata, ids] after the two nested loops. *)
Definition population (KNOWLEDGE_BASE : QuestionBank) : list IndexEntry :=
  mbind (λ rq : string * list QuestionRecord, entries_of_role rq.1 rq.2)
        KNOWLEDGE_BASE.

Definition setup_knowledge_base (KNOWLEDGE_BASE : QuestionBank)
    (client : Chroma.client) : result (Chroma.client * list Msg) :=
  let roles_from_json : gset string := list_to_set KNOWLEDGE_BASE.*1 in
  let '(client, rebuild_required, out) :=
    match Chroma.get_collection client with
    | Ok col =>
        let existing_metadata := e_meta <$> col in
        let roles_in_db : gset string :=
          match existing_metadata with
          | [] => ∅
          | _ => list_to_set (m_role <$> existing_metadata)
          end in
        if bool_decide (roles_in_db ≠ roles_from_json)
        then (Chroma.delete_collection client, true, [MsgRolesMismatch])
        else (client, false, [])
    | Raise _ => (client, true, [MsgNotFound])
    end in
  let vector_store := Chroma.open_store client in
  if rebuild_required || (Chroma.count vector_store =? 0)
  then
    vector_store ← Chroma.add_texts (population KNOWLEDGE_BASE) vector_store ;
    Ok (Some vector_store, out ++ [MsgPopulating; MsgPopulationComplete])
  else Ok (Some vector_store, out ++ [MsgUpToDate]).

(** ** Sampler: [get_questions_for_role] ([tool.py]) *)

(** [x[i], x[j] = x[j], x[i]] *)
Definition swap {A} (x : list A) (i j : nat) : list A :=
  match x !! i, x !! j with
  | Some a, Some b => <[j:=a]> (<[i:=b]> x)
  | _, _ => x
  end.

(** [random.shuffle(x)]: for [i] from [len(x)-1] down to [1], swap [x[i]]
    with [x[randbelow(i+1)]].  The generator is a stream of raw draws
    [draw 0, draw 1, ...], the [k]-th call of [randbelow(n)] returning
    [draw k mod n]. *)
Fixpoint shuffle_go {A} (draw : nat → nat) (k i : nat) (x : list A) : list A :=
  match i with
  | O => x
  | S i' => shuffle_go draw (S k) i' (swap x i (draw k mod S i))
  end.

Definition shuffle {A} (draw : nat → nat) (x : list A) : list A :=
  shuffle_go draw 0 (length x - 1) x.

(** [l[:n]] for a Python [int] [n]. *)
Definition slice_to {A} (n : Z) (l : list A) : list A :=
  if (0 <=? n)%Z then take (Z.to_nat n) l
  else take (length l - Z.to_nat (- n)) l.

Definition question_of_meta (meta : Meta) : QuestionRecord :=
  mkQuestion (m_full_question meta) (deserialize_options (m_options meta))
    (m_answer meta).

Definition get_questions_for_role (vector_store : Chroma.collection)
    (role : string) (num_questions : Z) (draw : nat → nat)
  : list QuestionRecord :=
  let metadatas := e_meta <$> Chroma.get_where_role role vector_store in
  match metadatas with
  | [] => []
  | _ =>
      let questions := question_of_meta <$> metadatas in
      slice_to num_questions (shuffle draw questions)
  end.

(** The index entries behind a sample: the same shuffle and slice applied to
    the entries themselves, which still carry their ids. *)
Definition sampled_entries (vector_store : Chroma.collection)
    (role : string) (num_questions : Z) (draw : nat → nat)
  : list IndexEntry :=
  slice_to num_questions
    (shuffle draw (Chroma.get_where_role role vector_store)).

(** ** Floating point: the percentage and its renderings ([api.py]) *)
Module PyFloat.

(** Nearest integer to [p * 2^e], ties to even ([p >= 0]). *)
Definition round_half_even (p e : Z) : Z :=
  if (0 <=? e)%Z then (p * 2 ^ e)%Z
  else
    let d := (2 ^ (- e))%Z in
    let q := (p / d)%Z in
    let r := (p mod d)%Z in
    match (2 * r ?= d)%Z with
    | Lt => q
    | Gt => (q + 1)%Z
    | Eq => if Z.even q then q else (q + 1)%Z
    end.

(** [float(n)] for an [int] below 2^53, where the conversion is exact. *)
Definition of_nat (n : nat) : float :=
  PrimFloat.of_uint63 (Uint63.of_Z (Z.of_nat n)).

Definition str_of_Z (n : Z) : string := PyStr.str_of_nat (Z.to_nat n).

(** [f"{x:.1f}"] *)
Definition format_1f (x : float) : string :=
  match Prim2SF x with
  | S754_zero s => (if s then "-" else "") +:+ "0.0"
  | S754_infinity s => if s then "-inf" else "inf"
  | S754_nan => "nan"
  | S754_finite s m e =>
      let n := round_half_even (Z.pos m * 10) e in
      (if s then "-" else "") +:+ str_of_Z (n / 10) +:+ "."
        +:+ str_of_Z (n mod 10)
  end.

(** [round(x, 2)], for [|x|] below 2^53 / 100. *)
Definition round2 (x : float) : float :=
  match Prim2SF x with
  | S754_finite s m e =>
      let n := round_half_even (Z.pos m * 100) e in
      let y := PrimFloat.div (PrimFloat.of_uint63 (Uint63.of_Z n))
                 (PrimFloat.of_uint63 100%uint63) in
      if s then PrimFloat.opp y else y
  | _ => x
  end.

End PyFloat.

(** ** Stateless service: request validation and [submit_assessment]
    ([api.py]) *)

(** [QuestionModel] has the fields of a question record. *)
Abbreviation QuestionModel := QuestionRecord.

(** The body of [POST /assessment/submit] once parsed as JSON and coerced to
    the field types. *)
Record SubmissionBody := mkBody {
  b_role : string;
  b_answers : list string;
  b_questions : list QuestionModel
}.

Record SubmissionRequest := mkRequest {
  sr_role : string;
  sr_answers : list string;
  sr_questions : list QuestionModel
}.

(** [values]: the fields validated so far, by name. *)
Record Values := mkValues {
  v_role : option string;
  v_answers : option (list string);
  v_questions : option (list QuestionModel)
}.

Inductive HTTPError :=
  | RequestValidationError (errors : list string)
  | HTTPException (status_code : nat) (detail : string).

Definition status_of (e : HTTPError) : nat :=
  match e with
  | RequestValidationError _ => 422
  | HTTPException s _ => s
  end.

Definition is_client_error (e : HTTPError) : bool :=
  (400 <=? status_of e) && (status_of e <? 500).

Record ResultResponse := mkResponse {
  rr_role : string;
  rr_score : nat;
  rr_total_questions : nat;
  rr_percentage : float;
  rr_feedback : string
}.

Section Service.

(** [KNOWLEDGE_BASE], loaded from [knowledge_base.json]. *)
Variable KNOWLEDGE_BASE : QuestionBank.

(** [get_feedback(score, total_questions, role)]: the text the external
    text-generation chain returns, or the error it raises. *)
Variable get_feedback : nat → nat → string → result string.

(** [repr] of a list of role names (names without quotes or escapes). *)
Definition repr_roles (roles : list string) : string :=
  "[" +:+ PyStr.join ", " ((λ r, "'" +:+ r +:+ "'") <$> roles) +:+ "]".

(** [@validator('role')] *)
Definition validate_role (v : string) : result string :=
  if bool_decide (v ∈ KNOWLEDGE_BASE.*1) then Ok v
  else
    let available_roles := KNOWLEDGE_BASE.*1 in
    Raise (ValueError ("Role '" +:+ v +:+ "' not found. Available roles: "
                       +:+ repr_roles available_roles)).

(** [@validator('answers')] *)
Definition validate_answers_length (v : list string) (values : Values)
  : result (list string) :=
  match v_questions values with
  | Some questions =>
      if bool_decide (length v ≠ length questions)
      then Raise (ValueError "Number of answers must match number of questions")
      else Ok v
  | None => Ok v
  end.

Definition exn_msg (e : exn) : string :=
  match e with
  | ValueError m => m
  | DuplicateIDError => "DuplicateIDError"
  | ExternalError m => m
  end.

(** Construction of a [SubmissionRequest]: the fields are validated in
    the order of their declaration ([role], [answers], [questions]); a
    validator sees in [values] the fields validated before its own. *)
Definition parse_submission (body : SubmissionBody)
  : HTTPError + SubmissionRequest :=
  let values := mkValues None None None in
  let errors : list string := [] in
  let '(values, errors) :=
    match validate_role (b_role body) with
    | Ok v => (mkValues (Some v) (v_answers values) (v_questions values), errors)
    | Raise e => (values, errors ++ [exn_msg e])
    end in
  let '(values, errors) :=
    match validate_answers_length (b_answers body) values with
    | Ok v => (mkValues (v_role values) (Some v) (v_questions values), errors)
    | Raise e => (values, errors ++ [exn_msg e])
    end in
  let values :=
    mkValues (v_role values) (v_answers values) (Some (b_questions body)) in
  match errors, v_role values, v_answers values, v_questions values with
  | [], Some r, Some a, Some q => inr (mkRequest r a q)
  | _, _, _, _ => inl (RequestValidationError errors)
  end.

(** The comparison of the scoring loop. *)
Definition answer_matches (user_answer : string) (q : QuestionModel) : bool :=
  bool_decide (PyStr.lower (PyStr.strip user_answer)
               = PyStr.lower (PyStr.strip (answer q))).

(** [for i, (user_answer, question) in enumerate(zip(answers, questions))] *)
Definition count_correct (answers : list string) (questions : list QuestionModel)
  : nat :=
  foldl (λ correct_answers p,
           if answer_matches p.1 p.2 then correct_answers + 1
           else correct_answers)
        0 (zip answers questions).

(** [(correct_answers / total_questions) * 100 if total_questions > 0 else 0] *)
Definition percentage_of (correct_answers total_questions : nat) : float :=
  if 0 <? total_questions
  then PrimFloat.mul
         (PrimFloat.div (PyFloat.of_nat correct_answers)
            (PyFloat.of_nat total_questions))
         (PyFloat.of_nat 100)
  else PrimFloat.zero.

Definition fallback_feedback (correct_answers total_questions : nat)
    (percentage : float) : string :=
  "Assessment completed with a score of " +:+ PyStr.str_of_nat correct_answers
  +:+ " out of " +:+ PyStr.str_of_nat total_questions
  +:+ " questions correct (" +:+ PyFloat.format_1f percentage
  +:+ "%). Detailed feedback is temporarily unavailable.".

Definition submit_assessment (request : SubmissionRequest)
  : HTTPError + ResultResponse :=
  let correct_answers := count_correct (sr_answers request) (sr_questions request) in
  let total_questions := length (sr_questions request) in
  let percentage := percentage_of correct_answers total_questions in
  let feedback :=
    match get_feedback correct_answers total_questions (sr_role request) with
    | Ok text => text
    | Raise _ => fallback_feedback correct_answers total_questions percentage
    end in
  inr (mkResponse (sr_role request) correct_answers total_questions
         (PyFloat.round2 percentage) feedback).

(** [POST /assessment/submit]: the body is validated, then handled. *)
Definition post_assessment_submit (body : SubmissionBody)
  : HTTPError + ResultResponse :=
  match parse_submission body with
  | inl e => inl e
  | inr request => submit_assessment request
  end.

(** ** Session UI: the page shown after the last question ([app.py]) *)

Record SessionState := mkSession {
  ss_test_started : bool;
  ss_questions : list QuestionRecord;
  ss_current_question : nat;
  ss_user_answers : gmap nat string;
  ss_score : nat;
  ss_feedback : string;
  ss_selected_role : string
}.

(** [for i, q in enumerate(questions): if user_answers.get(i) == q['answer']] *)
Definition ui_score (user_answers : gmap nat string)
    (questions : list QuestionRecord) : nat :=
  foldl (λ score iq,
           if bool_decide (user_answers !! iq.1 = Some (answer iq.2))
           then score + 1 else score)
        0 (imap pair questions).

(** The [else] branch of the script, up to the feedback box.  An error of
    [get_feedback] is not caught: it ends the script run. *)
Definition final_page (st : SessionState) : result SessionState :=
  let score :=
    if (ss_score st =? 0) && negb (bool_decide (ss_user_answers st = ∅))
    then ui_score (ss_user_answers st) (ss_questions st)
    else ss_score st in
  let total := length (ss_questions st) in
  feedback ←
    (if bool_decide (ss_feedback st = "")
     then get_feedback score total (ss_selected_role st)
     else Ok (ss_feedback st)) ;
  Ok (mkSession (ss_test_started st) (ss_questions st)
        (ss_current_question st) (ss_user_answers st) score feedback
        (ss_selected_role st)).

End Service.

(** ** The claims in the words of the specification *)

(** Case-insensitive, whitespace-trimmed equality of two strings. *)
Definition ci_trim_eq (a b : string) : Prop :=
  PyStr.lower (PyStr.strip a) = PyStr.lower (PyStr.strip b).

Global Instance ci_trim_eq_dec a b : Decision (ci_trim_eq a b).
Proof. unfold ci_trim_eq. apply _. Defined.

(** The [(role, ordinal)] pairs of a bank: every key with every position of
    its question list. *)
Definition bank_pairs (KNOWLEDGE_BASE : QuestionBank) : list (string * nat) :=
  mbind (λ rq : string * list QuestionRecord, pair rq.1 <$> seq 0 (length rq.2))
        KNOWLEDGE_BASE.

(** The set of distinct [role] values found in the entries of the Index. *)
Definition roles_of (col : Chroma.collection) : gset string :=
  list_to_set ((λ e, m_role (e_meta e)) <$> col).

(** Steps 4 to 6 of the reconciliation as the specification words them: the
    Index is repopulated when it does not exist yet, when the roles found in
    it differ from the roles of the bank, or when it is empty. *)
Definition repopulates (KNOWLEDGE_BASE : QuestionBank) (client : Chroma.client)
  : bool :=
  match client with
  | None => true
  | Some col =>
      bool_decide (roles_of col ≠ list_to_set KNOWLEDGE_BASE.*1)
      || bool_decide (col = [])
  end.

(** ** Concrete inputs *)
Module Sample.

Definition q_sql : QuestionRecord :=
  mkQuestion "Which clause filters rows?" ["WHERE"; "GROUP BY"; "ORDER BY"] "WHERE".
Definition q_etl : QuestionRecord :=
  mkQuestion "What does ETL stand for?"
    ["Extract, Transform, Load"; "Evaluate, Test, Launch"] "Extract, Transform, Load".
Definition q_idx : QuestionRecord :=
  mkQuestion "Is an index a copy of the table?" ["Yes"; "No"; "Maybe"] "No".
Definition q_hr : QuestionRecord :=
  mkQuestion "Who approves leave?" ["Manager"; "Peer"] "Manager".

Definition bank : QuestionBank :=
  [("Data Engineer", [q_sql; q_etl; q_idx]); ("HR Manager", [q_hr])].

(** Two role names that differ only by a space against an underscore. *)
Definition bank_colliding : QuestionBank :=
  [("Data Engineer", [q_sql]); ("Data_Engineer", [q_etl])].

(** A bank and its next version, with one more question for the same role. *)
Definition bank_v1 : QuestionBank := [("Data Engineer", [q_sql])].
Definition bank_v2 : QuestionBank := [("Data Engineer", [q_sql; q_etl])].

(** A bank one of whose roles has no question yet. *)
Definition bank_empty_role : QuestionBank :=
  [("Data Engineer", [q_sql]); ("Intern", [])].

(** A text-generation service that is down. *)
Definition llm_down : nat → nat → string → result string :=
  λ _ _ _, Raise (ExternalError "503 Service Unavailable").

(** The two questions and the two answers of the scoring example. *)
Definition qA : QuestionRecord := mkQuestion "First?" ["a"; "A"] "A".
Definition qB : QuestionRecord := mkQuestion "Second?" [" B "; "B"] "B".

End Sample.

(** ** Stateless service: the other operations ([api.py]) *)

(** The body of [POST /assessment/start]; [num_questions] may be left out. *)
Record AssessmentBody := mkAssessmentBody {
  ab_role : string;
  ab_num_questions : option Z
}.

Record AssessmentRequest := mkAssessmentRequest {
  ar_role : string;
  ar_num_questions : Z
}.

Record AssessmentResponse := mkAssessmentResponse {
  as_role : string;
  as_questions : list QuestionModel;
  as_total_questions : nat
}.

Record HealthResponse := mkHealth {
  h_status : string;
  h_message : string;
  h_available_roles : list string;
  h_total_questions_in_db : nat
}.

(** The [dict] returned by [get_role_stats]. *)
Record RoleStats := mkStats {
  rs_role : string;
  rs_total_questions_available : nat;
  rs_questions_in_knowledge_base : nat
}.

(** [Field(default=10, ge=1, le=50)] *)
Definition validate_num_questions (v : option Z) : result Z :=
  match v with
  | None => Ok 10%Z
  | Some n =>
      if (n <? 1)%Z
      then Raise (ValueError "ensure this value is greater than or equal to 1")
      else if (50 <? n)%Z
           then Raise (ValueError "ensure this value is less than or equal to 50")
           else Ok n
  end.

(** Construction of an [AssessmentRequest]: [role], then [num_questions]. *)
Definition parse_assessment (KNOWLEDGE_BASE : QuestionBank)
    (body : AssessmentBody) : HTTPError + AssessmentRequest :=
  let errors : list string := [] in
  let '(role, errors) :=
    match validate_role KNOWLEDGE_BASE (ab_role body) with
    | Ok v => (Some v, errors)
    | Raise e => (None, errors ++ [exn_msg e])
    end in
  let '(num_questions, errors) :=
    match validate_num_questions (ab_num_questions body) with
    | Ok v => (Some v, errors)
    | Raise e => (None, errors ++ [exn_msg e])
    end in
  match errors, role, num_questions with
  | [], Some r, Some n => inr (mkAssessmentRequest r n)
  | _, _, _ => inl (RequestValidationError errors)
  end.

(** [KNOWLEDGE_BASE[role]] for a key of the bank. *)
Definition bank_get (KNOWLEDGE_BASE : QuestionBank) (role : string)
  : option (list QuestionRecord) :=
  (list_to_map KNOWLEDGE_BASE : gmap string (list QuestionRecord)) !! role.

(** [start_assessment]; the global [vector_store] is [None] until the
    start-up has set it. *)
Definition start_assessment (vector_store : option Chroma.collection)
    (request : AssessmentRequest) (draw : nat → nat)
  : HTTPError + AssessmentResponse :=
  match vector_store with
  | None => inl (HTTPException 503 "Vector store not initialized")
  | Some vector_store =>
      let questions :=
        get_questions_for_role vector_store (ar_role request)
          (ar_num_questions request) draw in
      match questions with
      | [] => inl (HTTPException 404
                     ("No questions found for role: " +:+ ar_role request))
      | _ =>
          let question_models :=
            (λ q, mkQuestion (question q) (options q) (answer q)) <$> questions in
          inr (mkAssessmentResponse (ar_role request) question_models
                 (length question_models))
      end
  end.

(** [POST /assessment/start]: the body is validated, then handled. *)
Definition post_assessment_start (KNOWLEDGE_BASE : QuestionBank)
    (vector_store : option Chroma.collection) (body : AssessmentBody)
    (draw : nat → nat) : HTTPError + AssessmentResponse :=
  match parse_assessment KNOWLEDGE_BASE body with
  | inl e => inl e
  | inr request => start_assessment vector_store request draw
  end.

(** [health_check]: the error raised for a missing store is caught by the
    handler's own [except Exception] and raised again, still as a 503. *)
Definition health_check (KNOWLEDGE_BASE : QuestionBank)
    (vector_store : option Chroma.collection) : HTTPError + HealthResponse :=
  match vector_store with
  | None =>
      inl (HTTPException 503
             "Service unavailable: 503: Vector store not initialized")
  | Some vector_store =>
      let total_count := Chroma.count vector_store in
      inr (mkHealth "healthy" "API is running successfully"
             KNOWLEDGE_BASE.*1 total_count)
  end.

(** [get_role_stats] *)
Definition get_role_stats (KNOWLEDGE_BASE : QuestionBank)
    (vector_store : option Chroma.collection) (role : string)
  : HTTPError + RoleStats :=
  match vector_store with
  | None => inl (HTTPException 503 "Vector store not initialized")
  | Some vector_store =>
      match bank_get KNOWLEDGE_BASE role with
      | None => inl (HTTPException 404 ("Role '" +:+ role +:+ "' not found"))
      | Some bank_questions =>
          let all_questions := Chroma.get_where_role role vector_store in
          let question_count := length (e_meta <$> all_questions) in
          inr (mkStats role question_count (length bank_questions))
      end
  end.

(** ** Session UI: one run of the script ([app.py]) *)

(** What the widgets of a run return: the role of the select box, the index
    of the option picked in the radio group ([None] without a choice), and
    for every button whether it was pressed. *)
Record Widgets := mkWidgets {
  w_selected_role : string;
  w_start : bool;
  w_user_choice : option nat;
  w_previous : bool;
  w_next : bool;
  w_submit : bool;
  w_restart : bool
}.

(** How a run ends: at the end of the script, at [st.rerun()], or with an
    uncaught error. *)
Inductive Outcome :=
  | Done
  | Rerun
  | Failed (e : exn).

(** [st.session_state] before the first run. *)
Definition initial_state : SessionState :=
  mkSession false [] 0 ∅ 0 "" "".

Definition set_user_answers (st : SessionState) (ua : gmap nat string)
  : SessionState :=
  mkSession (ss_test_started st) (ss_questions st) (ss_current_question st)
    ua (ss_score st) (ss_feedback st) (ss_selected_role st).

Definition set_current_question (st : SessionState) (n : nat) : SessionState :=
  mkSession (ss_test_started st) (ss_questions st) n (ss_user_answers st)
    (ss_score st) (ss_feedback st) (ss_selected_role st).

Definition set_test_started (st : SessionState) (b : bool) : SessionState :=
  mkSession b (ss_questions st) (ss_current_question st) (ss_user_answers st)
    (ss_score st) (ss_feedback st) (ss_selected_role st).

(** The final page with the session state it leaves behind: the score is
    stored before [get_feedback] is called, and stays stored when the call
    fails. *)
Definition final_page_state (get_feedback : nat → nat → string → result string)
    (st : SessionState) : SessionState * option exn :=
  let score :=
    if (ss_score st =? 0) && negb (bool_decide (ss_user_answers st = ∅))
    then ui_score (ss_user_answers st) (ss_questions st)
    else ss_score st in
  let total := length (ss_questions st) in
  let st :=
    mkSession (ss_test_started st) (ss_questions st) (ss_current_question st)
      (ss_user_answers st) score (ss_feedback st) (ss_selected_role st) in
  if bool_decide (ss_feedback st = "")
  then
    match get_feedback score total (ss_selected_role st) with
    | Ok text =>
        (mkSession (ss_test_started st) (ss_questions st)
           (ss_current_question st) (ss_user_answers st) score text
           (ss_selected_role st), None)
    | Raise e => (st, Some e)
    end
  else (st, None).

(** One run of the script, from the session state and the widget values to
    the session state it leaves and the way it ends. *)
Definition run_script (vector_store : Chroma.collection)
    (get_feedback : nat → nat → string → result string) (draw : nat → nat)
    (st : SessionState) (w : Widgets) : SessionState * Outcome :=
  if negb (ss_test_started st) then
    if w_start w then
      let questions :=
        get_questions_for_role vector_store (w_selected_role w) 10 draw in
      match questions with
      | [] => (st, Done)
      | _ => (mkSession true questions 0 ∅ 0 "" (w_selected_role w), Rerun)
      end
    else (st, Done)
  else if ss_current_question st <? length (ss_questions st) then
    let q_index := ss_current_question st in
    let user_choice : option string :=
      question_data ← ss_questions st !! q_index;
      index ← w_user_choice w;
      options question_data !! index in
    let st :=
      match user_choice with
      | Some c =>
          if bool_decide (c = "") then st
          else set_user_answers st (<[q_index := c]> (ss_user_answers st))
      | None => st
      end in
    if (0 <? q_index) && w_previous w
    then (set_current_question st (q_index - 1), Rerun)
    else if q_index <? length (ss_questions st) - 1
         then if w_next w
              then (set_current_question st (q_index + 1), Rerun)
              else (st, Done)
         else if w_submit w
              then (set_current_question st (q_index + 1), Rerun)
              else (st, Done)
  else
    let '(st, err) := final_page_state get_feedback st in
    match err with
    | Some e => (st, Failed e)
    | None =>
        if w_restart w then (set_test_started st false, Rerun) else (st, Done)
    end.

(** The widget values of a run nobody interacted with. *)
Definition idle (role : string) : Widgets :=
  mkWidgets role false None false false false false.

(** A user action: the run it triggers and, after [st.rerun()], the run that
    follows at once, in which no widget has a value yet. *)
Definition interact (vector_store : Chroma.collection)
    (get_feedback : nat → nat → string → result string) (draw : nat → nat)
    (st : SessionState) (w : Widgets) : SessionState * Outcome :=
  let '(st', o) := run_script vector_store get_feedback draw st w in
  match o with
  | Rerun =>
      run_script vector_store get_feedback draw st' (idle (w_selected_role w))
  | _ => (st', o)
  end.

(** The score the final page stores. *)
Definition page_score (st : SessionState) : nat :=
  if (ss_score st =? 0) && negb (bool_decide (ss_user_answers st = ∅))
  then ui_score (ss_user_answers st) (ss_questions st)
  else ss_score st.

(** The runs of a session: each with the text generation service, the random
    draws and the widget values of its moment. *)
Definition session_after (vector_store : Chroma.collection)
    (runs : list ((nat → nat → string → result string) * (nat → nat) * Widgets))
  : SessionState :=
  foldl (λ st r, (run_script vector_store r.1.1 r.1.2 st r.2).1)
        initial_state runs.

(** What every run of the script keeps true of the session state. *)
Definition session_ok (st : SessionState) : Prop :=
  ss_current_question st ≤ length (ss_questions st) ∧
  length (ss_questions st) ≤ 10 ∧
  (ss_test_started st = true → ss_questions st ≠ []) ∧
  (∀ i c, ss_user_answers st !! i = Some c →
     c ≠ "" ∧ ∃ q, ss_questions st !! i = Some q ∧ c ∈ options q) ∧
  ss_score st ≤ length (ss_questions st).

(** An option list that the storage encoding returns unchanged. *)
Fixpoint encodable (opts : list string) : bool :=
  match opts with
  | [] => false
  | o :: rest =>
      negb (PyStr.contains DELIM o) &&
      match rest with
      | [] => true
      | _ => negb (PyStr.endswith "|" o) && encodable rest
      end
  end.

(** Further concrete inputs. *)
Module Sample2.

Definition store : Chroma.collection := population Sample.bank.

Definition session_q1 : SessionState :=
  mkSession true [Sample.q_sql; Sample.q_etl; Sample.q_idx] 1
    {[0 := "WHERE"]} 0 "" "Data Engineer".

Definition session_done : SessionState :=
  mkSession true [Sample.q_sql; Sample.q_etl] 2
    {[0 := "WHERE"; 1 := "Evaluate, Test, Launch"]} 0 "" "Data Engineer".

Definition llm_ok : nat → nat → string → result string :=
  λ _ _ _, Ok "Solid basics.".

(** A question whose stored answer differs from the option it names by the
    case of one letter. *)
Definition q_paris : QuestionRecord :=
  mkQuestion "What is the capital of France?" ["Paris"; "London"] "paris".

Definition bank_geo : QuestionBank := [("Geographer", [q_paris])].

(** A role with twelve questions. *)
Definition bank_long : QuestionBank :=
  [("Nurse",
    (λ i, mkQuestion ("Question " +:+ PyStr.str_of_nat i) ["yes"; "no"] "yes")
      <$> seq 0 12)].

End Sample2.

(** * Properties *)

(** ** The model on small inputs *)

Example make_id_ex : make_id "Data Engineer" 12 = "Data_Engineer_12".
Proof. reflexivity. Qed.

Example split_ex_overlap : PyStr.split "||" "a|||b" = ["a"; "|b"].
Proof. reflexivity. Qed.

Example split_ex_empty : PyStr.split "||" "" = [""].
Proof. reflexivity. Qed.

Example split_ex_adjacent : PyStr.split "||" "x||||y||" = ["x"; ""; "y"; ""].
Proof. reflexivity. Qed.

Example strip_lower_ex : PyStr.lower (PyStr.strip "  B c ") = "b c".
Proof. reflexivity. Qed.

Example shuffle_ex : shuffle (λ k, k + 1) [1; 2; 3; 4] = [1; 4; 3; 2].
Proof. reflexivity. Qed.

Example slice_to_ex : slice_to 2 [1; 2; 3; 4] = [1; 2] ∧ slice_to 9 [1; 2] = [1; 2].
Proof. split; reflexivity. Qed.

(** A negative bound counts from the end, as Python slices do. *)
Example slice_to_negative_ex : slice_to (-1) [1; 2; 3; 4] = [1; 2; 3].
Proof. reflexivity. Qed.

Example format_1f_ex :
  PyFloat.format_1f (percentage_of 1 3) = "33.3" ∧
  PyFloat.format_1f (percentage_of 1 16) = "6.2" ∧
  PyFloat.format_1f (percentage_of 3 16) = "18.8" ∧
  PyFloat.format_1f (percentage_of 0 0) = "0.0".
Proof. repeat split; vm_compute; reflexivity. Qed.

Example population_ex :
  e_id <$> population Sample.bank
  = ["Data_Engineer_0"; "Data_Engineer_1"; "Data_Engineer_2"; "HR_Manager_0"].
Proof. vm_compute. reflexivity. Qed.

(** Colliding ids make the write of the Index fail. *)
Example setup_colliding_ex :
  setup_knowledge_base Sample.bank_colliding None = Raise DuplicateIDError.
Proof. vm_compute. reflexivity. Qed.

(** ** Strings *)

Lemma app_cons c s t : String c s +:+ t = String c (s +:+ t).
Proof. reflexivity. Qed.

Lemma app_empty t : "" +:+ t = t.
Proof. reflexivity. Qed.

Ltac norm_app H :=
  repeat first [rewrite app_cons in H | rewrite app_empty in H].

Section StringFacts.

Lemma startswith_delim_inv c s :
  PyStr.startswith DELIM (String c s) = true →
  c = "|"%char ∧ ∃ s', s = String "|" s'.
Proof.
  unfold DELIM. cbn [PyStr.startswith]. intros H.
  apply andb_prop in H as [Hc H]. apply Ascii.eqb_eq in Hc as <-.
  destruct s as [|d s']; [discriminate|].
  apply andb_prop in H as [Hd _]. apply Ascii.eqb_eq in Hd as <-. eauto.
Qed.

(** A piece without the delimiter, not ending in its first character and
    followed by the delimiter, is cut off whole. *)
Lemma split_piece o t :
  PyStr.contains DELIM o = false →
  PyStr.endswith "|" o = false →
  PyStr.split DELIM (o +:+ DELIM +:+ t) = o :: PyStr.split DELIM t.
Proof.
  unfold PyStr.split. induction o as [|c o IH]; intros Hc He.
  - reflexivity.
  - rewrite app_cons. cbn [PyStr.split_go].
    assert (PyStr.startswith DELIM (String c (o +:+ DELIM +:+ t)) = false) as ->.
    { apply not_true_is_false. intros Hp.
      apply startswith_delim_inv in Hp as [-> [s' Hs]].
      destruct o as [|d o]; [discriminate He|].
      rewrite app_cons in Hs. injection Hs as -> _.
      discriminate Hc. }
    cbn [PyStr.contains] in Hc. apply orb_false_elim in Hc as [_ Hc].
    rewrite IH; [done|done|].
    destruct o; [|done]. cbn in He. cbn. destruct c as [[][][][][][][][]]; done.
Qed.

(** The last piece only has to be free of the delimiter. *)
Lemma split_last o :
  PyStr.contains DELIM o = false → PyStr.split DELIM o = [o].
Proof.
  unfold PyStr.split. induction o as [|c o IH]; intros Hc; [done|].
  cbn [PyStr.contains] in Hc. apply orb_false_elim in Hc as [Hp Hc].
  cbn [PyStr.split_go]. rewrite Hp, IH; done.
Qed.

End StringFacts.

(** ** Option lists through the storage encoding *)

(** C7 (as amended): an option list with at least one element (so every list
    of two or more), none of whose elements contains the delimiter ["||"] and
    none of whose elements other than the last ends with ["|"], is returned
    unchanged and in order by serialising it into the [options] field and
    splitting it again. *)
Theorem options_roundtrip (opts : list string) :
  opts ≠ [] →
  Forall (λ o, PyStr.contains DELIM o = false) opts →
  Forall (λ o, PyStr.endswith "|" o = false) (removelast opts) →
  deserialize_options (serialize_options opts) = opts.
Proof.
  unfold deserialize_options, serialize_options.
  induction opts as [|o rest IH]; intros Hne Hc He; [done|].
  apply Forall_cons in Hc as [Hco Hc].
  destruct rest as [|o' rest].
  - cbn [PyStr.join]. by apply split_last.
  - change (removelast (o :: o' :: rest)) with (o :: removelast (o' :: rest)) in He.
    apply Forall_cons in He as [Heo He].
    change (PyStr.join DELIM (o :: o' :: rest))
      with (o +:+ DELIM +:+ PyStr.join DELIM (o' :: rest)).
    rewrite split_piece by done. f_equal. by apply IH.
Qed.

(** The list of the specification round-trips. *)
Lemma options_roundtrip_witness :
  ["Yes"; "No"; "Maybe"] ≠ [] ∧
  Forall (λ o, PyStr.contains DELIM o = false) ["Yes"; "No"; "Maybe"] ∧
  Forall (λ o, PyStr.endswith "|" o = false) (removelast ["Yes"; "No"; "Maybe"]) ∧
  serialize_options ["Yes"; "No"; "Maybe"] = "Yes||No||Maybe" ∧
  deserialize_options (serialize_options ["Yes"; "No"; "Maybe"])
  = ["Yes"; "No"; "Maybe"].
Proof.
  assert (["Yes"; "No"; "Maybe"] ≠ []) as Hne by discriminate.
  assert (Forall (λ o, PyStr.contains DELIM o = false) ["Yes"; "No"; "Maybe"])
    as Hc by (repeat constructor).
  assert (Forall (λ o, PyStr.endswith "|" o = false)
            (removelast ["Yes"; "No"; "Maybe"])) as He by (repeat constructor).
  split; [exact Hne|]. split; [exact Hc|]. split; [exact He|].
  split; [reflexivity|].
  exact (options_roundtrip ["Yes"; "No"; "Maybe"] Hne Hc He).
Defined.

(** C7 as stated fails: neither ["a|"] nor ["b"] contains ["||"], yet the
    joined text ["a|||b"] is cut after the first two bars. *)
Lemma options_roundtrip_counterexample :
  2 ≤ length ["a|"; "b"] ∧
  Forall (λ o, PyStr.contains DELIM o = false) ["a|"; "b"] ∧
  deserialize_options (serialize_options ["a|"; "b"]) = ["a"; "|b"] ∧
  deserialize_options (serialize_options ["a|"; "b"]) ≠ ["a|"; "b"].
Proof.
  split; [cbn; lia|]. split; [repeat constructor|]. split; [reflexivity|].
  discriminate.
Qed.

(** ** Entry ids *)

Section Ids.

Lemma str_of_nat_inj n m : PyStr.str_of_nat n = PyStr.str_of_nat m → n = m.
Proof.
  unfold PyStr.str_of_nat. intros H.
  apply (f_equal NilEmpty.uint_of_string) in H.
  rewrite !NilEmpty.usu in H. injection H as H.
  apply (f_equal Nat.of_uint) in H. by rewrite !Unsigned.of_to in H.
Qed.

(** A decimal numeral has no underscore in it. *)
Lemma digits_no_underscore d a b :
  NilEmpty.string_of_uint d ≠ a +:+ String "_" b.
Proof.
  revert a. induction d; intros [|c a] H; cbn in H; try discriminate;
    rewrite ?app_cons in H; injection H as _ H; by eapply IHd.
Qed.

(** The text before the last underscore and the numeral after it are
    determined by the whole. *)
Lemma cut_unique x y d e :
  (∀ a b, d ≠ a +:+ String "_" b) →
  (∀ a b, e ≠ a +:+ String "_" b) →
  x +:+ "_" +:+ d = y +:+ "_" +:+ e → x = y ∧ d = e.
Proof.
  intros Hd He. revert y.
  induction x as [|c x IH]; intros [|c' y] H; norm_app H.
  - by injection H.
  - injection H as _ H. destruct (Hd y e). by norm_app H.
  - injection H as _ H. destruct (He x d). by norm_app H.
  - injection H as -> H. by apply IH in H as [-> ->].
Qed.

Lemma make_id_inv r1 i1 r2 i2 :
  make_id r1 i1 = make_id r2 i2 →
  PyStr.replace " " "_" r1 = PyStr.replace " " "_" r2 ∧ i1 = i2.
Proof.
  unfold make_id. intros H.
  apply cut_unique in H as [Hr Hi];
    [|intros; apply digits_no_underscore..].
  split; [done|]. by apply str_of_nat_inj.
Qed.

Lemma elem_of_bank_pairs KB r i :
  (r, i) ∈ bank_pairs KB ↔ ∃ qs, (r, qs) ∈ KB ∧ i < length qs.
Proof.
  unfold bank_pairs. rewrite list_elem_of_bind. split.
  - intros [[r' qs] [Hin Hkb]]. cbn in Hin.
    apply list_elem_of_fmap in Hin as [j [[= -> ->] Hj]].
    apply elem_of_seq in Hj. exists qs. split; [done|lia].
  - intros [qs [Hkb Hi]]. exists (r, qs). split; [|done]. cbn.
    apply list_elem_of_fmap. exists i. split; [done|].
    apply elem_of_seq. lia.
Qed.

Lemma NoDup_fmap_inj_on {A B} (f : A → B) (l : list A) x y :
  NoDup (f <$> l) → x ∈ l → y ∈ l → f x = f y → x = y.
Proof.
  induction l as [|a l IH]; [by inversion 2|].
  rewrite fmap_cons, NoDup_cons, !elem_of_cons.
  intros [Ha Hl] [->|Hx] [->|Hy] Hf; auto.
  - destruct Ha. rewrite Hf. apply list_elem_of_fmap. eauto.
  - destruct Ha. rewrite <-Hf. apply list_elem_of_fmap. eauto.
Qed.

Lemma ids_of_entries_of_role r qs :
  e_id <$> entries_of_role r qs = make_id r <$> seq 0 (length qs).
Proof.
  unfold entries_of_role. rewrite fmap_imap.
  rewrite <-(imap_seq_0 qs (make_id r)). by apply imap_ext.
Qed.

Lemma ids_of_population KB :
  e_id <$> population KB = (λ p, make_id p.1 p.2) <$> bank_pairs KB.
Proof.
  unfold population, bank_pairs. induction KB as [|[r qs] KB IH]; [done|].
  rewrite !bind_cons, !fmap_app, IH. f_equal. cbn [fst snd].
  rewrite ids_of_entries_of_role, <-list_fmap_compose. done.
Qed.

Lemma bank_pairs_NoDup (KB : QuestionBank) : NoDup KB.*1 → NoDup (bank_pairs KB).
Proof.
  intros Hk. unfold bank_pairs. apply NoDup_bind.
  - intros [r1 q1] [r2 q2] [r i] H1 H2 Hi1 Hi2. cbn in Hi1, Hi2.
    apply list_elem_of_fmap in Hi1 as [? [[= -> ->] _]].
    apply list_elem_of_fmap in Hi2 as [? [[= -> _] _]].
    by eapply (NoDup_fmap_inj_on fst).
  - intros [r qs] _. cbn. apply NoDup_fmap_2; [|apply NoDup_seq].
    by intros ?? [=].
  - by eapply NoDup_fmap_1.
Qed.

(** The ids are injective on the pairs of a bank whose keys stay distinct
    once their spaces are replaced. *)
Lemma make_id_inj_on (KB : QuestionBank) r1 i1 r2 i2 :
  NoDup (PyStr.replace " " "_" <$> KB.*1) →
  r1 ∈ KB.*1 → r2 ∈ KB.*1 →
  make_id r1 i1 = make_id r2 i2 → r1 = r2 ∧ i1 = i2.
Proof.
  intros Hnd H1 H2 [Hr Hi]%make_id_inv. split; [|done].
  by eapply NoDup_fmap_inj_on.
Qed.

Lemma population_ids_NoDup (KB : QuestionBank) :
  NoDup (PyStr.replace " " "_" <$> KB.*1) → NoDup (e_id <$> population KB).
Proof.
  intros Hnd. rewrite ids_of_population.
  apply NoDup_fmap_2_strong.
  - intros [r1 i1] [r2 i2] [q1 [H1 _]]%elem_of_bank_pairs
      [q2 [H2 _]]%elem_of_bank_pairs Hid. cbn in Hid.
    apply (make_id_inj_on KB) in Hid as [-> ->]; [done|done|..].
    + apply list_elem_of_fmap. by exists (r1, q1).
    + apply list_elem_of_fmap. by exists (r2, q2).
  - apply bank_pairs_NoDup. by eapply NoDup_fmap_1.
Qed.

End Ids.

(** C8 (as amended): over the [(role, ordinal)] pairs of a bank whose role
    names remain pairwise distinct after their spaces are replaced by
    underscores, the id derivation is injective, and the entries written for
    the bank carry pairwise distinct ids. *)
Theorem make_id_injective (KNOWLEDGE_BASE : QuestionBank) :
  NoDup (PyStr.replace " " "_" <$> KNOWLEDGE_BASE.*1) →
  (∀ p1 p2, p1 ∈ bank_pairs KNOWLEDGE_BASE → p2 ∈ bank_pairs KNOWLEDGE_BASE →
            make_id p1.1 p1.2 = make_id p2.1 p2.2 → p1 = p2)
  ∧ NoDup (e_id <$> population KNOWLEDGE_BASE).
Proof.
  intros Hnd. split; [|by apply population_ids_NoDup].
  intros [r1 i1] [r2 i2] [q1 [H1 _]]%elem_of_bank_pairs
    [q2 [H2 _]]%elem_of_bank_pairs Hid. cbn in Hid.
  apply (make_id_inj_on KNOWLEDGE_BASE) in Hid as [-> ->]; [done|done|..].
  - apply list_elem_of_fmap. by exists (r1, q1).
  - apply list_elem_of_fmap. by exists (r2, q2).
Qed.

Lemma make_id_injective_witness :
  NoDup (PyStr.replace " " "_" <$> Sample.bank.*1) ∧
  (∀ p1 p2, p1 ∈ bank_pairs Sample.bank → p2 ∈ bank_pairs Sample.bank →
            make_id p1.1 p1.2 = make_id p2.1 p2.2 → p1 = p2) ∧
  NoDup (e_id <$> population Sample.bank).
Proof.
  split.
  - compute_done.
  - apply (make_id_injective Sample.bank). compute_done.
Defined.

(** C8 as stated fails: a bank may hold the roles ["Data Engineer"] and
    ["Data_Engineer"], whose first questions get the same id. *)
Lemma make_id_injective_counterexample :
  NoDup Sample.bank_colliding.*1 ∧
  ("Data Engineer", 0) ∈ bank_pairs Sample.bank_colliding ∧
  ("Data_Engineer", 0) ∈ bank_pairs Sample.bank_colliding ∧
  make_id "Data Engineer" 0 = make_id "Data_Engineer" 0 ∧
  ("Data Engineer", 0) ≠ ("Data_Engineer", 0).
Proof.
  split; [compute_done|]. split; [compute_done|].
  split; [compute_done|]. split; [reflexivity|discriminate].
Qed.

(** ** Index synchroniser *)

Section Synchroniser.

Implicit Types (KB : QuestionBank) (col batch : list IndexEntry).

Lemma upsert_fresh col e :
  e_id e ∉ e_id <$> col → Chroma.upsert col e = col ++ [e].
Proof. intros H. unfold Chroma.upsert. by rewrite bool_decide_eq_false_2. Qed.

Lemma foldl_upsert_fresh batch col :
  NoDup (e_id <$> col ++ batch) → foldl Chroma.upsert col batch = col ++ batch.
Proof.
  revert col. induction batch as [|e batch IH]; intros col Hnd; cbn.
  - by rewrite app_nil_r.
  - rewrite upsert_fresh.
    + rewrite IH; rewrite <-app_assoc; done.
    + rewrite fmap_app, NoDup_app in Hnd. destruct Hnd as (_ & Hd & _).
      intros Hin. apply (Hd _ Hin). rewrite fmap_cons. left.
Qed.

(** Writing a batch into an empty collection stores the batch as it is, and
    succeeds exactly for a non-empty batch with distinct ids. *)
Lemma add_texts_empty_inv batch col :
  Chroma.add_texts batch [] = Ok col →
  col = batch ∧ batch ≠ [] ∧ NoDup (e_id <$> batch).
Proof.
  unfold Chroma.add_texts. destruct batch as [|e batch]; [done|].
  case_bool_decide as Hnd; [|done]. intros [= <-].
  split; [|done]. by rewrite foldl_upsert_fresh.
Qed.

Lemma add_texts_empty_ok batch :
  batch ≠ [] → NoDup (e_id <$> batch) → Chroma.add_texts batch [] = Ok batch.
Proof.
  intros Hne Hnd. unfold Chroma.add_texts. destruct batch as [|e batch]; [done|].
  rewrite bool_decide_eq_true_2 by done. by rewrite foldl_upsert_fresh.
Qed.

(** The roles computed from the metadata of an existing collection. *)
Lemma roles_in_db_eq col :
  match e_meta <$> col with
  | [] => ∅
  | _ => list_to_set (m_role <$> (e_meta <$> col))
  end = roles_of col.
Proof.
  unfold roles_of. destruct col as [|e col]; [done|].
  by rewrite <-list_fmap_compose.
Qed.

(** The two ways through [setup_knowledge_base]. *)
Lemma setup_repopulating KB client :
  repopulates KB client = true →
  ∃ out0, setup_knowledge_base KB client =
    (col ← Chroma.add_texts (population KB) [];
     Ok (Some col, out0 ++ [MsgPopulating; MsgPopulationComplete])).
Proof.
  unfold repopulates, setup_knowledge_base. destruct client as [col|]; cbn.
  - rewrite roles_in_db_eq. case_bool_decide as Hr; cbn.
    + intros _. by exists [MsgRolesMismatch].
    + intros Hc. apply bool_decide_eq_true_1 in Hc as ->. by exists [].
  - intros _. by exists [MsgNotFound].
Qed.

Lemma setup_up_to_date KB col :
  repopulates KB (Some col) = false →
  setup_knowledge_base KB (Some col) = Ok (Some col, [MsgUpToDate]).
Proof.
  unfold repopulates, setup_knowledge_base. cbn.
  intros [Hr Hc]%orb_false_elim. rewrite roles_in_db_eq, Hr. cbn.
  apply bool_decide_eq_false_1 in Hc. by destruct col.
Qed.

Lemma filter_all {A} (P : A → Prop) `{∀ x, Decision (P x)} (l : list A) :
  Forall P l → filter P l = l.
Proof.
  induction 1 as [|x l Hx _ IH]; [done|].
  by rewrite filter_cons_True, IH.
Qed.

Lemma filter_none {A} (P : A → Prop) `{∀ x, Decision (P x)} (l : list A) :
  Forall (λ x, ¬ P x) l → filter P l = [].
Proof.
  induction 1 as [|x l Hx _ IH]; [done|].
  by rewrite filter_cons_False.
Qed.

Lemma role_of_entries r qs :
  (λ e, m_role (e_meta e)) <$> entries_of_role r qs = (λ _, r) <$> qs.
Proof.
  unfold entries_of_role. rewrite fmap_imap.
  rewrite <-(imap_const (λ _ : QuestionRecord, r)). by apply imap_ext.
Qed.

(** The entries of a role, before the store orders them. *)
Lemma get_where_role_perm r col :
  Chroma.get_where_role r col ≡ₚ filter (λ e, m_role (e_meta e) = r) col.
Proof. unfold Chroma.get_where_role. apply merge_sort_Permutation. Qed.

Lemma get_where_role_length r col :
  length (Chroma.get_where_role r col)
  = length (filter (λ e, m_role (e_meta e) = r) col).
Proof. by rewrite get_where_role_perm. Qed.

Lemma get_where_role_nil r col :
  filter (λ e, m_role (e_meta e) = r) col = [] → Chroma.get_where_role r col = [].
Proof. intros H. unfold Chroma.get_where_role. by rewrite H. Qed.

Lemma get_where_role_submseteq r col : Chroma.get_where_role r col ⊆+ col.
Proof.
  rewrite get_where_role_perm. apply sublist_submseteq, sublist_filter.
Qed.

Lemma filter_entries_same r qs :
  filter (λ e, m_role (e_meta e) = r) (entries_of_role r qs) = entries_of_role r qs.
Proof.
  apply filter_all, Forall_forall.
  intros e He.
  assert (m_role (e_meta e) ∈ (λ e, m_role (e_meta e)) <$> entries_of_role r qs)
    as Hin by (apply list_elem_of_fmap; eauto).
  rewrite role_of_entries in Hin.
  by apply list_elem_of_fmap in Hin as [? [-> _]].
Qed.

Lemma filter_entries_other r r' qs :
  r' ≠ r → filter (λ e, m_role (e_meta e) = r) (entries_of_role r' qs) = [].
Proof.
  intros Hne. apply filter_none, Forall_forall.
  intros e He.
  assert (m_role (e_meta e) ∈ (λ e, m_role (e_meta e)) <$> entries_of_role r' qs)
    as Hin by (apply list_elem_of_fmap; eauto).
  rewrite role_of_entries in Hin.
  by apply list_elem_of_fmap in Hin as [? [-> _]].
Qed.

Lemma filter_role_population_absent KB r :
  r ∉ KB.*1 → filter (λ e, m_role (e_meta e) = r) (population KB) = [].
Proof.
  unfold population. induction KB as [|[r' qs'] KB IH]; [done|].
  rewrite fmap_cons, not_elem_of_cons, bind_cons, filter_app.
  intros [Hne Hnot]. cbn [fst snd]. rewrite filter_entries_other by done.
  by rewrite IH.
Qed.

Lemma filter_role_population KB r qs :
  NoDup KB.*1 → (r, qs) ∈ KB →
  filter (λ e, m_role (e_meta e) = r) (population KB) = entries_of_role r qs.
Proof.
  unfold population. induction KB as [|[r' qs'] KB IH]; [by inversion 2|].
  rewrite fmap_cons, NoDup_cons, elem_of_cons, bind_cons, filter_app.
  cbn [fst snd]. intros [Hnot Hnd] [[= <- <-]|Hin].
  - rewrite filter_entries_same.
    fold (population KB). rewrite filter_role_population_absent by done.
    by rewrite app_nil_r.
  - rewrite filter_entries_other, IH; [done..|].
    intros ->. apply Hnot, list_elem_of_fmap. by exists (r, qs).
Qed.

Lemma filter_population_absent KB r :
  r ∉ KB.*1 → Chroma.get_where_role r (population KB) = [].
Proof. intros Hr. by apply get_where_role_nil, filter_role_population_absent. Qed.

(** In the freshly written collection, the entries of a role are those of
    its questions. *)
Lemma filter_population KB r qs :
  NoDup KB.*1 → (r, qs) ∈ KB →
  Chroma.get_where_role r (population KB) ≡ₚ entries_of_role r qs.
Proof.
  intros Hnd Hin. by rewrite get_where_role_perm, (filter_role_population _ _ qs).
Qed.

Lemma roles_of_app col1 col2 : roles_of (col1 ++ col2) = roles_of col1 ∪ roles_of col2.
Proof. unfold roles_of. by rewrite fmap_app, list_to_set_app_L. Qed.

Lemma roles_of_entries r qs : qs ≠ [] → roles_of (entries_of_role r qs) = {[r]}.
Proof.
  unfold roles_of. rewrite role_of_entries.
  induction qs as [|q qs IH]; [done|]. intros _.
  destruct qs as [|q' qs]; cbn; [by rewrite (right_id_L ∅ (∪))|].
  cbn in IH. rewrite IH by done. by rewrite (idemp_L (∪)).
Qed.

(** Once written, the collection shows every role of a bank without empty
    roles. *)
Lemma roles_of_population KB :
  Forall (λ rq, rq.2 ≠ []) KB → roles_of (population KB) = list_to_set KB.*1.
Proof.
  unfold population. induction 1 as [|[r qs] KB Hq _ IH]; [done|].
  rewrite bind_cons, roles_of_app, IH, roles_of_entries by done.
  by rewrite fmap_cons.
Qed.

(** A bank with at least one question, whose role names stay distinct once
    their spaces are replaced, is reconciled from every state of the store. *)
Lemma setup_completes KB client :
  NoDup (PyStr.replace " " "_" <$> KB.*1) → population KB ≠ [] →
  ∃ client' out, setup_knowledge_base KB client = Ok (client', out).
Proof.
  intros Hnd Hne. destruct (repopulates KB client) eqn:Hrep.
  - destruct (setup_repopulating _ _ Hrep) as [out0 ->].
    rewrite add_texts_empty_ok; [by eexists _, _|done|].
    by apply population_ids_NoDup.
  - destruct client as [col|]; [|done].
    rewrite setup_up_to_date by done. by eexists _, _.
Qed.

End Synchroniser.

(** C4 (as amended): when a reconciliation that completes repopulates the
    Index (the collection was missing, empty, or showed other roles than the
    bank), the Index then holds, for every role [r] of the bank, exactly
    [len(QuestionBank[r])] entries of that role: they are, in some order, the
    entries of the questions of [r], the question at position [i] of the
    bank's list under ordinal [i], for [i] = 0, 1, ...; a non-empty Index
    showing the roles of the bank is left as it was. *)
Theorem reconcile_index_contents (KNOWLEDGE_BASE : QuestionBank)
    (client client' : Chroma.client) (out : list Msg) :
  NoDup KNOWLEDGE_BASE.*1 →
  setup_knowledge_base KNOWLEDGE_BASE client = Ok (client', out) →
  (repopulates KNOWLEDGE_BASE client = true →
   ∃ col, client' = Some col ∧
     ∀ r qs, (r, qs) ∈ KNOWLEDGE_BASE →
       length (Chroma.get_where_role r col) = length qs ∧
       Chroma.get_where_role r col ≡ₚ entries_of_role r qs ∧
       ∀ i q, qs !! i = Some q →
         mkEntry (make_id r i) (question q)
           (mkMeta r (question q) (serialize_options (options q)) (answer q))
         ∈ Chroma.get_where_role r col)
  ∧ (repopulates KNOWLEDGE_BASE client = false →
     client' = client ∧ out = [MsgUpToDate]).
Proof.
  intros Hnd Hrun. split; intros Hrep.
  - destruct (setup_repopulating _ _ Hrep) as [out0 Heq].
    rewrite Heq in Hrun.
    destruct (Chroma.add_texts (population KNOWLEDGE_BASE) []) as [col|e] eqn:Hadd;
      [|done].
    injection Hrun as <- _. exists col. split; [done|].
    apply add_texts_empty_inv in Hadd as (-> & _ & _).
    intros r qs Hin.
    pose proof (filter_population _ _ qs Hnd Hin) as Hperm.
    split; [|split; [done|]].
    + rewrite Hperm. unfold entries_of_role. by rewrite length_imap.
    + intros i q Hq. rewrite Hperm. unfold entries_of_role.
      apply elem_of_lookup_imap. by exists i, q.
  - destruct client as [col|]; [|done].
    rewrite setup_up_to_date in Hrun by done. by injection Hrun as <- <-.
Qed.

Lemma reconcile_index_contents_witness :
  NoDup Sample.bank.*1 ∧
  setup_knowledge_base Sample.bank None
  = Ok (Some (population Sample.bank),
        [MsgNotFound; MsgPopulating; MsgPopulationComplete]) ∧
  repopulates Sample.bank None = true ∧
  length (Chroma.get_where_role "Data Engineer" (population Sample.bank)) = 3 ∧
  mkEntry "Data_Engineer_2" "Is an index a copy of the table?"
    (mkMeta "Data Engineer" "Is an index a copy of the table?"
       "Yes||No||Maybe" "No")
  ∈ Chroma.get_where_role "Data Engineer" (population Sample.bank).
Proof.
  assert (NoDup Sample.bank.*1) as Hnd by compute_done.
  assert (setup_knowledge_base Sample.bank None
          = Ok (Some (population Sample.bank),
                [MsgNotFound; MsgPopulating; MsgPopulationComplete])) as Hrun
    by (vm_compute; reflexivity).
  split; [exact Hnd|]. split; [exact Hrun|]. split; [reflexivity|].
  destruct (proj1 (reconcile_index_contents Sample.bank None _ _ Hnd Hrun) eq_refl)
    as (col & [= <-] & Hall).
  destruct (Hall "Data Engineer" [Sample.q_sql; Sample.q_etl; Sample.q_idx])
    as (Hlen & _ & Hat); [compute_done|].
  split; [exact Hlen|]. exact (Hat 2 Sample.q_idx eq_refl).
Defined.

(** C4 as stated fails: the Index written for [bank_v1] shows the roles of
    [bank_v2], so reconciling with [bank_v2] keeps it, with one entry for a
    role that now has two questions. *)
Lemma reconcile_index_contents_counterexample :
  setup_knowledge_base Sample.bank_v1 None
  = Ok (Some (population Sample.bank_v1),
        [MsgNotFound; MsgPopulating; MsgPopulationComplete]) ∧
  setup_knowledge_base Sample.bank_v2 (Some (population Sample.bank_v1))
  = Ok (Some (population Sample.bank_v1), [MsgUpToDate]) ∧
  ("Data Engineer", [Sample.q_sql; Sample.q_etl]) ∈ Sample.bank_v2 ∧
  length (Chroma.get_where_role "Data Engineer" (population Sample.bank_v1)) = 1 ∧
  length [Sample.q_sql; Sample.q_etl] = 2.
Proof.
  split; [vm_compute; reflexivity|]. split; [vm_compute; reflexivity|].
  split; [compute_done|]. split; reflexivity.
Qed.

(** The ordinals name the entries; they are not the positions at which the
    store hands the entries out.  For a role with twelve questions the
    entries come back in the order of their ids as text, so the entry under
    ordinal 10 comes third. *)
Example get_where_role_order :
  e_id <$> Chroma.get_where_role "Nurse" (population Sample2.bank_long)
  = ["Nurse_0"; "Nurse_1"; "Nurse_10"; "Nurse_11"; "Nurse_2"; "Nurse_3";
     "Nurse_4"; "Nurse_5"; "Nurse_6"; "Nurse_7"; "Nurse_8"; "Nurse_9"]
  ∧ e_id <$> population Sample2.bank_long
    = ["Nurse_0"; "Nurse_1"; "Nurse_2"; "Nurse_3"; "Nurse_4"; "Nurse_5";
       "Nurse_6"; "Nurse_7"; "Nurse_8"; "Nurse_9"; "Nurse_10"; "Nurse_11"].
Proof. split; vm_compute; reflexivity. Qed.

(** C5 (as amended): a second reconciliation in succession with an
    unchanged bank leaves the Index as the first one left it (same entries,
    same ids); when every role of the bank has at least one question it
    performs no repopulation. *)
Theorem reconcile_idempotent (KNOWLEDGE_BASE : QuestionBank)
    (client client1 : Chroma.client) (out1 : list Msg) :
  setup_knowledge_base KNOWLEDGE_BASE client = Ok (client1, out1) →
  (∃ out2, setup_knowledge_base KNOWLEDGE_BASE client1 = Ok (client1, out2)) ∧
  (Forall (λ rq, rq.2 ≠ []) KNOWLEDGE_BASE →
   setup_knowledge_base KNOWLEDGE_BASE client1 = Ok (client1, [MsgUpToDate])).
Proof.
  intros Hrun. destruct (repopulates KNOWLEDGE_BASE client) eqn:Hrep.
  - destruct (setup_repopulating _ _ Hrep) as [out0 Heq]. rewrite Heq in Hrun.
    destruct (Chroma.add_texts (population KNOWLEDGE_BASE) []) as [col|e] eqn:Hadd;
      [|done].
    injection Hrun as <- _.
    apply add_texts_empty_inv in Hadd as (-> & Hne & Hnd).
    destruct (repopulates KNOWLEDGE_BASE (Some (population KNOWLEDGE_BASE)))
      eqn:Hrep2.
    + split.
      * destruct (setup_repopulating _ _ Hrep2) as [out2 Heq2].
        eexists. rewrite Heq2, add_texts_empty_ok by done. reflexivity.
      * intros Hall. exfalso. unfold repopulates in Hrep2.
        rewrite roles_of_population in Hrep2 by done.
        rewrite bool_decide_eq_false_2, bool_decide_eq_false_2 in Hrep2; [done|done|].
        by intros [].
    + pose proof (setup_up_to_date _ _ Hrep2). eauto.
  - destruct client as [col|]; [|done].
    pose proof (setup_up_to_date _ _ Hrep) as Heq.
    rewrite Heq in Hrun. injection Hrun as <- _. eauto.
Qed.

Lemma reconcile_idempotent_witness :
  setup_knowledge_base Sample.bank None
  = Ok (Some (population Sample.bank),
        [MsgNotFound; MsgPopulating; MsgPopulationComplete]) ∧
  Forall (λ rq, rq.2 ≠ []) Sample.bank ∧
  setup_knowledge_base Sample.bank (Some (population Sample.bank))
  = Ok (Some (population Sample.bank), [MsgUpToDate]).
Proof.
  assert (setup_knowledge_base Sample.bank None
          = Ok (Some (population Sample.bank),
                [MsgNotFound; MsgPopulating; MsgPopulationComplete])) as Hrun
    by (vm_compute; reflexivity).
  assert (Forall (λ rq, rq.2 ≠ []) Sample.bank) as Hall
    by (repeat constructor; discriminate).
  split; [exact Hrun|]. split; [exact Hall|].
  exact (proj2 (reconcile_idempotent Sample.bank None _ _ Hrun) Hall).
Defined.

(** C5 as stated fails: a role without questions never shows in the Index,
    so every reconciliation finds the roles differing and writes the Index
    anew. *)
Lemma reconcile_idempotent_counterexample :
  setup_knowledge_base Sample.bank_empty_role None
  = Ok (Some (population Sample.bank_empty_role),
        [MsgNotFound; MsgPopulating; MsgPopulationComplete]) ∧
  setup_knowledge_base Sample.bank_empty_role
    (Some (population Sample.bank_empty_role))
  = Ok (Some (population Sample.bank_empty_role),
        [MsgRolesMismatch; MsgPopulating; MsgPopulationComplete]).
Proof. split; vm_compute; reflexivity. Qed.

(** ** Sampler *)

Section Sampler.

Context {A B : Type}.
Implicit Types (l x : list A) (f : A → B).

Lemma insert_head_perm l j a b :
  l !! j = Some b → b :: <[j:=a]> l ≡ₚ a :: l.
Proof.
  revert j. induction l as [|y l IH]; intros [|j] Hj; try done.
  - injection Hj as ->. apply perm_swap.
  - cbn in *. rewrite perm_swap, (IH j Hj). apply perm_swap.
Qed.

Lemma insert_swap_perm l i j a b :
  l !! i = Some a → l !! j = Some b → <[j:=a]> (<[i:=b]> l) ≡ₚ l.
Proof.
  revert i j. induction l as [|y l IH]; intros [|i] [|j] Hi Hj; try done.
  - by injection Hi as ->; injection Hj as ->.
  - injection Hi as ->. cbn in *. by apply insert_head_perm.
  - injection Hj as ->. cbn in *. by apply insert_head_perm.
  - cbn in *. by rewrite (IH i j).
Qed.

Lemma swap_perm x i j : swap x i j ≡ₚ x.
Proof.
  unfold swap. destruct (x !! i) eqn:Hi; [|done].
  destruct (x !! j) eqn:Hj; [|done]. by apply insert_swap_perm.
Qed.

Lemma shuffle_go_perm draw k i x : shuffle_go draw k i x ≡ₚ x.
Proof.
  revert k x. induction i as [|i IH]; intros k x; [done|].
  cbn [shuffle_go]. by rewrite IH, swap_perm.
Qed.

(** Whatever the generator draws, the shuffle rearranges its argument. *)
Lemma shuffle_perm draw x : shuffle draw x ≡ₚ x.
Proof. apply shuffle_go_perm. Qed.

Lemma swap_fmap f x i j : f <$> swap x i j = swap (f <$> x) i j.
Proof.
  unfold swap. rewrite !list_lookup_fmap.
  destruct (x !! i), (x !! j); cbn; by rewrite ?list_fmap_insert.
Qed.

Lemma shuffle_go_fmap f draw k i x :
  f <$> shuffle_go draw k i x = shuffle_go draw k i (f <$> x).
Proof.
  revert k x. induction i as [|i IH]; intros k x; [done|].
  cbn [shuffle_go]. by rewrite IH, swap_fmap.
Qed.

(** The shuffle moves positions: it commutes with a map over the elements. *)
Lemma shuffle_fmap f draw x : f <$> shuffle draw x = shuffle draw (f <$> x).
Proof. unfold shuffle. by rewrite shuffle_go_fmap, length_fmap. Qed.

Lemma slice_to_fmap f n x : f <$> slice_to n x = slice_to n (f <$> x).
Proof.
  unfold slice_to. rewrite length_fmap.
  destruct (0 <=? n)%Z; apply fmap_take.
Qed.

Lemma slice_to_length n x :
  (0 ≤ n)%Z → length (slice_to n x) = length x `min` Z.to_nat n.
Proof.
  intros Hn. unfold slice_to.
  rewrite (proj2 (Z.leb_le 0 n) Hn), length_take. lia.
Qed.

Lemma slice_to_all n x : (Z.of_nat (length x) ≤ n)%Z → slice_to n x = x.
Proof.
  intros Hn. unfold slice_to.
  rewrite (proj2 (Z.leb_le 0 n)) by lia. apply take_ge. lia.
Qed.

Lemma slice_to_submseteq n x : slice_to n x ⊆+ x.
Proof. unfold slice_to. destruct (0 <=? n)%Z; apply submseteq_take. Qed.

Lemma submseteq_NoDup l1 l2 : l1 ⊆+ l2 → NoDup l2 → NoDup l1.
Proof.
  intros (l' & Hsub & Hp)%submseteq_sublist_l Hnd.
  eapply sublist_NoDup; [|done]. by rewrite Hp.
Qed.

End Sampler.

(** What the sampler returns is the image of the entries it picked. *)
Lemma sample_of_entries (vector_store : Chroma.collection) role num draw :
  get_questions_for_role vector_store role num draw
  = (λ e, question_of_meta (e_meta e)) <$> sampled_entries vector_store role num draw.
Proof.
  unfold get_questions_for_role, sampled_entries.
  destruct (Chroma.get_where_role role vector_store) as [|e es] eqn:Hget.
  - unfold slice_to. cbn. by destruct (0 <=? num)%Z; rewrite take_nil.
  - rewrite slice_to_fmap, shuffle_fmap, <-list_fmap_compose. done.
Qed.

Lemma sampled_entries_submseteq (vector_store : Chroma.collection) role num draw :
  sampled_entries vector_store role num draw
  ⊆+ Chroma.get_where_role role vector_store.
Proof.
  unfold sampled_entries. etrans; [apply slice_to_submseteq|].
  by rewrite shuffle_perm.
Qed.

(** C6: for a role with [k] indexed questions and a count (a non-negative
    integer), the sampler returns [min(k, count)] records, the images of
    entries picked without repetition among the [k] of the role, so with
    pairwise distinct ids; with [count >= k] the sample is a rearrangement
    of all [k] records. *)
Theorem sample_distinct_bounded (vector_store : Chroma.collection)
    (role : string) (num : Z) (draw : nat → nat) :
  NoDup (e_id <$> vector_store) →
  (0 ≤ num)%Z →
  let indexed := Chroma.get_where_role role vector_store in
  let chosen := sampled_entries vector_store role num draw in
  let result := get_questions_for_role vector_store role num draw in
  result = (λ e, question_of_meta (e_meta e)) <$> chosen ∧
  length result = length indexed `min` Z.to_nat num ∧
  NoDup (e_id <$> chosen) ∧
  chosen ⊆+ indexed ∧
  ((Z.of_nat (length indexed) ≤ num)%Z →
   chosen ≡ₚ indexed ∧
   result ≡ₚ (λ e, question_of_meta (e_meta e)) <$> indexed).
Proof.
  intros Hnd Hnum indexed chosen result.
  assert (result = (λ e, question_of_meta (e_meta e)) <$> chosen) as Hres
    by apply sample_of_entries.
  assert (chosen ⊆+ indexed) as Hsub by apply sampled_entries_submseteq.
  split; [done|]. split; [|split; [|split; [done|]]].
  - rewrite Hres, length_fmap. unfold chosen, sampled_entries.
    rewrite slice_to_length by done. by rewrite shuffle_perm.
  - eapply submseteq_NoDup; [|exact Hnd].
    etrans; [by apply fmap_submseteq|].
    apply fmap_submseteq, get_where_role_submseteq.
  - intros Hall.
    assert (chosen ≡ₚ indexed) as Hperm.
    { unfold chosen, sampled_entries. rewrite slice_to_all.
      - apply shuffle_perm.
      - by rewrite shuffle_perm. }
    split; [done|]. by rewrite Hres, Hperm.
Qed.

Lemma sample_distinct_bounded_witness :
  NoDup (e_id <$> population Sample.bank) ∧
  get_questions_for_role (population Sample.bank) "Data Engineer" 2 (λ k, k + 1)
  = [Sample.q_idx; Sample.q_sql] ∧
  length (get_questions_for_role (population Sample.bank) "Data Engineer" 2
            (λ k, k + 1))
  = length (Chroma.get_where_role "Data Engineer" (population Sample.bank))
      `min` Z.to_nat 2.
Proof.
  assert (NoDup (e_id <$> population Sample.bank)) as Hnd by compute_done.
  split; [exact Hnd|]. split; [vm_compute; reflexivity|].
  refine (proj1 (proj2 (sample_distinct_bounded (population Sample.bank)
                          "Data Engineer" 2 (λ k, k + 1) Hnd _))).
  lia.
Defined.

(** C9: for a role without entries in the Index the sampler returns the
    empty list, and it has no failing path; such is every role that the bank
    does not know, in the Index written for that bank. *)
Theorem sample_unknown_role (role : string) (num : Z) (draw : nat → nat) :
  (∀ vector_store : Chroma.collection,
     Chroma.get_where_role role vector_store = [] →
     get_questions_for_role vector_store role num draw = [])
  ∧ (∀ KNOWLEDGE_BASE : QuestionBank,
       role ∉ KNOWLEDGE_BASE.*1 →
       get_questions_for_role (population KNOWLEDGE_BASE) role num draw = []).
Proof.
  assert (∀ vector_store : Chroma.collection,
            Chroma.get_where_role role vector_store = [] →
            get_questions_for_role vector_store role num draw = []) as Hempty.
  { intros vector_store H. unfold get_questions_for_role. by rewrite H. }
  split; [exact Hempty|].
  intros KB Hnot. apply Hempty. by apply filter_population_absent.
Qed.

Lemma sample_unknown_role_witness :
  Chroma.get_where_role "Astronaut" (population Sample.bank) = [] ∧
  ("Astronaut" ∉ Sample.bank.*1) ∧
  get_questions_for_role (population Sample.bank) "Astronaut" 10 (λ k, k) = [].
Proof.
  assert ("Astronaut" ∉ Sample.bank.*1) as Hnot by compute_done.
  split; [reflexivity|]. split; [exact Hnot|].
  exact (proj2 (sample_unknown_role "Astronaut" 10 (λ k, k)) Sample.bank Hnot).
Defined.

(** ** Submission: validation and scoring *)

Section Scoring.

Variable KNOWLEDGE_BASE : QuestionBank.
Variable get_feedback : nat → nat → string → result string.

(** A counting loop adds to its counter the number of elements passing
    its test. *)
Lemma foldl_count {X} (P : X → Prop) `{∀ x, Decision (P x)} (l : list X) n :
  foldl (λ acc x, if bool_decide (P x) then acc + 1 else acc) n l
  = n + length (filter P l).
Proof.
  revert n. induction l as [|x l IH]; intros n; [cbn; lia|].
  cbn [foldl]. rewrite IH, filter_cons. case_bool_decide as HP.
  - rewrite decide_True by done. cbn. lia.
  - by rewrite decide_False.
Qed.

Lemma count_correct_filter answers questions :
  count_correct answers questions
  = length (filter (λ p, ci_trim_eq p.1 (answer p.2)) (zip answers questions)).
Proof.
  unfold count_correct.
  exact (foldl_count (λ p, ci_trim_eq p.1 (answer p.2)) (zip answers questions) 0).
Qed.

Lemma ui_score_filter (user_answers : gmap nat string) questions :
  ui_score user_answers questions
  = length (filter (λ iq, user_answers !! iq.1 = Some (answer iq.2))
              (imap pair questions)).
Proof.
  unfold ui_score.
  exact (foldl_count (λ iq, user_answers !! iq.1 = Some (answer iq.2))
           (imap pair questions) 0).
Qed.

(** When [answers] is validated, [values] holds at most the role: the
    length check finds no questions to compare with and lets every answer
    list through. *)
Lemma validate_answers_length_before_questions v role :
  validate_answers_length v (mkValues role None None) = Ok v.
Proof. reflexivity. Qed.

Lemma parse_submission_known_role body :
  b_role body ∈ KNOWLEDGE_BASE.*1 →
  parse_submission KNOWLEDGE_BASE body
  = inr (mkRequest (b_role body) (b_answers body) (b_questions body)).
Proof.
  intros Hr. unfold parse_submission, validate_role.
  by rewrite bool_decide_eq_true_2.
Qed.

(** Validation refuses a body exactly for its role. *)
Lemma parse_submission_unknown_role body :
  b_role body ∉ KNOWLEDGE_BASE.*1 →
  ∃ e, parse_submission KNOWLEDGE_BASE body = inl e ∧ is_client_error e = true.
Proof.
  intros Hr. unfold parse_submission, validate_role.
  rewrite bool_decide_eq_false_2 by done. cbn. by eexists.
Qed.

Lemma parse_submission_inv body request :
  parse_submission KNOWLEDGE_BASE body = inr request →
  request = mkRequest (b_role body) (b_answers body) (b_questions body).
Proof.
  unfold parse_submission, validate_role.
  case_bool_decide; cbn; [by intros [= <-]|done].
Qed.

Lemma post_assessment_submit_inv body resp :
  post_assessment_submit KNOWLEDGE_BASE get_feedback body = inr resp →
  submit_assessment get_feedback
    (mkRequest (b_role body) (b_answers body) (b_questions body)) = inr resp.
Proof.
  unfold post_assessment_submit.
  destruct (parse_submission KNOWLEDGE_BASE body) as [e|request] eqn:Hp; [done|].
  by apply parse_submission_inv in Hp as ->.
Qed.

(** The stateless service recovers from a failing text generation. *)
Lemma submit_assessment_fallback request e :
  let score := count_correct (sr_answers request) (sr_questions request) in
  let total := length (sr_questions request) in
  get_feedback score total (sr_role request) = Raise e →
  ∃ resp, submit_assessment get_feedback request = inr resp ∧
          rr_feedback resp
          = fallback_feedback score total (percentage_of score total).
Proof.
  intros score total He. unfold submit_assessment. fold score total.
  rewrite He. by eexists.
Qed.

(** The session UI does not. *)
Lemma final_page_propagates st e :
  ss_score st = 0 → ss_feedback st = "" →
  get_feedback (ui_score (ss_user_answers st) (ss_questions st))
    (length (ss_questions st)) (ss_selected_role st) = Raise e →
  final_page get_feedback st = Raise e.
Proof.
  intros Hs Hf He. unfold final_page. rewrite Hs, Hf. cbn.
  case_bool_decide as Hua; cbn.
  - rewrite Hua in He. cbn in He.
    assert (ui_score ∅ (ss_questions st) = 0) as Hz.
    { rewrite ui_score_filter. rewrite filter_none; [done|].
      apply Forall_forall. intros iq _. by rewrite lookup_empty. }
    rewrite Hz in He. by rewrite He.
  - by rewrite He.
Qed.

End Scoring.

(** Had the length check seen the questions, it would have refused one
    answer for two questions. *)
Example validate_answers_length_sees_mismatch :
  validate_answers_length ["A"]
    (mkValues (Some "HR Manager") None (Some [Sample.qA; Sample.qB]))
  = Raise (ValueError "Number of answers must match number of questions").
Proof. reflexivity. Qed.

(** C1 (the code departs from the claim): a request for a known role
    whose answers list and questions list differ in length is not rejected;
    it passes validation, since [answers] is validated before [questions] is
    known, and is scored over the pairs of the two lists. *)
Theorem submit_accepts_length_mismatch (KNOWLEDGE_BASE : QuestionBank)
    (get_feedback : nat → nat → string → result string)
    (body : SubmissionBody) :
  b_role body ∈ KNOWLEDGE_BASE.*1 →
  length (b_answers body) ≠ length (b_questions body) →
  parse_submission KNOWLEDGE_BASE body
  = inr (mkRequest (b_role body) (b_answers body) (b_questions body)) ∧
  ∃ resp,
    post_assessment_submit KNOWLEDGE_BASE get_feedback body = inr resp ∧
    rr_score resp = count_correct (b_answers body) (b_questions body) ∧
    rr_total_questions resp = length (b_questions body).
Proof.
  intros Hrole _.
  pose proof (parse_submission_known_role KNOWLEDGE_BASE body Hrole) as Hparse.
  split; [exact Hparse|].
  unfold post_assessment_submit. rewrite Hparse.
  unfold submit_assessment. eexists. split; [reflexivity|]. by cbn.
Qed.

Lemma submit_accepts_length_mismatch_witness :
  "HR Manager" ∈ Sample.bank.*1 ∧
  length ["A"] ≠ length [Sample.qA; Sample.qB] ∧
  post_assessment_submit Sample.bank Sample.llm_down
    (mkBody "HR Manager" ["A"] [Sample.qA; Sample.qB])
  = inr (mkResponse "HR Manager" 1 2 50
           "Assessment completed with a score of 1 out of 2 questions correct (50.0%). Detailed feedback is temporarily unavailable.")
  ∧ ∃ resp,
      post_assessment_submit Sample.bank Sample.llm_down
        (mkBody "HR Manager" ["A"] [Sample.qA; Sample.qB]) = inr resp ∧
      rr_score resp = count_correct ["A"] [Sample.qA; Sample.qB] ∧
      rr_total_questions resp = length [Sample.qA; Sample.qB].
Proof.
  assert ("HR Manager" ∈ Sample.bank.*1) as Hrole by compute_done.
  assert (length ["A"] ≠ length [Sample.qA; Sample.qB]) as Hlen by discriminate.
  split; [exact Hrole|]. split; [exact Hlen|].
  split; [vm_compute; reflexivity|].
  exact (proj2 (submit_accepts_length_mismatch Sample.bank Sample.llm_down
                  (mkBody "HR Manager" ["A"] [Sample.qA; Sample.qB]) Hrole Hlen)).
Defined.

(** The specification's scoring example on the stateless path: a score of
    2; the same choices recorded in a session score 0. *)
Example scoring_example_a_B :
  count_correct ["a"; " B "] [Sample.qA; Sample.qB] = 2 ∧
  ui_score {[0 := "a"; 1 := " B "]} [Sample.qA; Sample.qB] = 0.
Proof. split; reflexivity. Qed.

(** C2 (the code departs from the claim): the stateless submit operation
    counts a question as correct when the answer given equals the stored
    answer once both are trimmed and lower-cased, but the final submit of the
    session UI compares the recorded choice with the stored answer itself.
    For a question whose stored answer is none of its options and a choice
    [c] among the options that matches the stored answer once trimmed and
    lower-cased, the submit operation scores 1 of 1, while the session UI
    scores 0 of 1, whichever option was chosen. *)
Theorem scoring_paths_diverge (KNOWLEDGE_BASE : QuestionBank)
    (get_feedback : nat → nat → string → result string)
    (q : QuestionRecord) (c role : string) :
  role ∈ KNOWLEDGE_BASE.*1 →
  c ∈ options q →
  ci_trim_eq c (answer q) →
  answer q ∉ options q →
  (∃ resp,
     post_assessment_submit KNOWLEDGE_BASE get_feedback (mkBody role [c] [q])
     = inr resp ∧
     rr_score resp = 1 ∧ rr_total_questions resp = 1)
  ∧ (∀ o, o ∈ options q → ui_score {[0 := o]} [q] = 0)
  ∧ final_page get_feedback (mkSession true [q] 1 {[0 := c]} 0 "" role)
    = (feedback ← get_feedback 0 1 role;
       Ok (mkSession true [q] 1 {[0 := c]} 0 feedback role)).
Proof.
  intros Hrole Hc Heq Hans.
  assert (∀ o, o ∈ options q → ui_score {[0 := o]} [q] = 0) as Hui.
  { intros o Ho. unfold ui_score. cbn. rewrite lookup_singleton_eq.
    rewrite bool_decide_eq_false_2; [done|]. intros [= ->]. done. }
  split; [|split; [exact Hui|]].
  - pose proof (parse_submission_known_role KNOWLEDGE_BASE
                  (mkBody role [c] [q]) Hrole) as Hparse.
    unfold post_assessment_submit. rewrite Hparse.
    unfold submit_assessment. eexists. split; [reflexivity|]. cbn.
    split; [|done]. unfold count_correct, answer_matches. cbn.
    by rewrite bool_decide_eq_true_2.
  - unfold final_page.
    cbn [ss_test_started ss_questions ss_current_question ss_user_answers
         ss_score ss_feedback ss_selected_role].
    rewrite (Hui c Hc).
    by destruct (bool_decide (({[0 := c]} : gmap nat string) = ∅)).
Qed.

Lemma scoring_paths_diverge_witness :
  (∃ resp,
     post_assessment_submit Sample2.bank_geo Sample2.llm_ok
       (mkBody "Geographer" ["Paris"] [Sample2.q_paris])
     = inr resp ∧
     rr_score resp = 1 ∧ rr_total_questions resp = 1)
  ∧ (∀ o, o ∈ ["Paris"; "London"] →
       ui_score {[0 := o]} [Sample2.q_paris] = 0)
  ∧ final_page Sample2.llm_ok
      (mkSession true [Sample2.q_paris] 1 {[0 := "Paris"]} 0 "" "Geographer")
    = Ok (mkSession true [Sample2.q_paris] 1 {[0 := "Paris"]} 0
            "Solid basics." "Geographer").
Proof.
  apply (scoring_paths_diverge Sample2.bank_geo Sample2.llm_ok Sample2.q_paris
           "Paris" "Geographer").
  - compute_done.
  - compute_done.
  - reflexivity.
  - compute_done.
Defined.

(** The same input through the routes themselves: the submit route answers
    with a score of 1 of 1; a session that starts the test, picks either
    option and submits ends on a final page with a score of 0. *)
Example session_scores_exact_match :
  post_assessment_submit Sample2.bank_geo Sample2.llm_ok
    (mkBody "Geographer" ["Paris"] [Sample2.q_paris])
  = inr (mkResponse "Geographer" 1 1 100 "Solid basics.")
  ∧ ∀ index, index < 2 →
      let st :=
        session_after (population Sample2.bank_geo)
          [(Sample2.llm_ok, λ k, k,
            mkWidgets "Geographer" true None false false false false);
           (Sample2.llm_ok, λ k, k,
            mkWidgets "Geographer" false (Some index) false false true false);
           (Sample2.llm_ok, λ k, k, idle "Geographer")] in
      ss_questions st = [Sample2.q_paris] ∧
      ss_user_answers st !! 0 = Sample2.q_paris.(options) !! index ∧
      ss_current_question st = 1 ∧ ss_score st = 0 ∧
      ss_feedback st = "Solid basics.".
Proof.
  split; [vm_compute; reflexivity|].
  intros [|[|index]] Hindex; [| |lia]; vm_compute; done.
Qed.

(** The fallback text of the specification's test: 7 of 10. *)
Example fallback_feedback_7_of_10 :
  fallback_feedback 7 10 (percentage_of 7 10)
  = "Assessment completed with a score of 7 out of 10 questions correct (70.0%). Detailed feedback is temporarily unavailable.".
Proof. vm_compute. reflexivity. Qed.

(** C3 (the code departs from the claim): when the text-generation call
    raises, the stateless submit operation answers with the fallback text,
    but the final page of the session UI, which calls it unguarded, ends with
    that error and produces no fallback. *)
Theorem feedback_failure_paths
    (get_feedback : nat → nat → string → result string) :
  (∀ request e,
     get_feedback (count_correct (sr_answers request) (sr_questions request))
       (length (sr_questions request)) (sr_role request) = Raise e →
     ∃ resp, submit_assessment get_feedback request = inr resp ∧
       rr_feedback resp
       = fallback_feedback
           (count_correct (sr_answers request) (sr_questions request))
           (length (sr_questions request))
           (percentage_of
              (count_correct (sr_answers request) (sr_questions request))
              (length (sr_questions request))))
  ∧ (∀ st e,
       ss_score st = 0 → ss_feedback st = "" →
       get_feedback (ui_score (ss_user_answers st) (ss_questions st))
         (length (ss_questions st)) (ss_selected_role st) = Raise e →
       final_page get_feedback st = Raise e).
Proof.
  split.
  - intros request e He. by apply submit_assessment_fallback with e.
  - intros st e. apply final_page_propagates.
Qed.

Lemma feedback_failure_paths_witness :
  (∃ resp,
     submit_assessment Sample.llm_down
       (mkRequest "HR Manager" ["A"; "b"] [Sample.qA; Sample.qB]) = inr resp ∧
     rr_feedback resp
     = "Assessment completed with a score of 2 out of 2 questions correct (100.0%). Detailed feedback is temporarily unavailable.")
  ∧ final_page Sample.llm_down
      (mkSession true [Sample.qA; Sample.qB] 2 {[0 := "A"; 1 := "B"]} 0 ""
         "HR Manager")
    = Raise (ExternalError "503 Service Unavailable").
Proof.
  split.
  - destruct (proj1 (feedback_failure_paths Sample.llm_down)
                (mkRequest "HR Manager" ["A"; "b"] [Sample.qA; Sample.qB])
                (ExternalError "503 Service Unavailable") eq_refl)
      as (resp & Hresp & Hfb).
    exists resp. split; [exact Hresp|]. rewrite Hfb. vm_compute. reflexivity.
  - apply (proj2 (feedback_failure_paths Sample.llm_down)); reflexivity.
Defined.



(** * Further properties of the code *)

(** ** The storage encoding, read backwards *)

Section Decoding.

Lemma split_go_nonempty sep k s : PyStr.split_go sep k s ≠ [].
Proof.
  revert k. induction s as [|c s IH]; intros k; [done|].
  cbn [PyStr.split_go]. destruct k as [|k]; [|apply IH].
  destruct (PyStr.startswith sep (String c s)); [done|].
  by destruct (PyStr.split_go sep 0 s).
Qed.

Lemma join_cons_char sep c piece rest :
  PyStr.join sep (String c piece :: rest)
  = String c (PyStr.join sep (piece :: rest)).
Proof. by destruct rest. Qed.

Lemma join_split_bounded n s :
  String.length s ≤ n → PyStr.join DELIM (PyStr.split_go DELIM 0 s) = s.
Proof.
  revert s. induction n as [|n IH]; intros [|c s] Hlen; try done.
  { cbn in Hlen. lia. }
  cbn [PyStr.split_go].
  destruct (PyStr.startswith DELIM (String c s)) eqn:Hp.
  - apply startswith_delim_inv in Hp as [-> [s' ->]].
    change (PyStr.split_go DELIM (String.length DELIM - 1) (String "|" s'))
      with (PyStr.split_go DELIM 0 s').
    pose proof (split_go_nonempty DELIM 0 s') as Hne.
    pose proof (IH s') as Hs'. cbn in Hlen.
    destruct (PyStr.split_go DELIM 0 s') as [|p r]; [done|].
    change (PyStr.join DELIM ("" :: p :: r))
      with ("" +:+ DELIM +:+ PyStr.join DELIM (p :: r)).
    rewrite Hs' by lia. reflexivity.
  - pose proof (split_go_nonempty DELIM 0 s) as Hne.
    pose proof (IH s) as Hs. cbn in Hlen.
    destruct (PyStr.split_go DELIM 0 s) as [|p r]; [done|].
    rewrite join_cons_char, Hs by lia. reflexivity.
Qed.

End Decoding.

(** X1: joining the pieces into which the sampler splits a stored [options]
    text gives that text back, for every text: the split loses nothing, and
    two texts that are split into the same option list are the same text. *)
Theorem serialize_deserialize (s : string) :
  serialize_options (deserialize_options s) = s ∧
  ∀ t, deserialize_options s = deserialize_options t → s = t.
Proof.
  assert (∀ u, serialize_options (deserialize_options u) = u) as Hback.
  { intros u. unfold serialize_options, deserialize_options, PyStr.split.
    by apply (join_split_bounded (String.length u)). }
  split; [apply Hback|].
  intros t Heq. rewrite <-(Hback s), <-(Hback t). by rewrite Heq.
Qed.

(** An option list accepted by [encodable] comes back from the Index as it
    went in. *)
Lemma encodable_roundtrip (opts : list string) :
  encodable opts = true → deserialize_options (serialize_options opts) = opts.
Proof.
  unfold deserialize_options, serialize_options.
  induction opts as [|o rest IH]; [done|].
  cbn [encodable]. intros [Hc Hrest]%andb_prop. apply negb_true_iff in Hc.
  destruct rest as [|o' rest].
  - cbn [PyStr.join]. by apply split_last.
  - apply andb_prop in Hrest as [He Hrest]. apply negb_true_iff in He.
    change (PyStr.join DELIM (o :: o' :: rest))
      with (o +:+ DELIM +:+ PyStr.join DELIM (o' :: rest)).
    rewrite split_piece by done. f_equal. by apply IH.
Qed.

(** ** Comparison of answers *)

Section Comparison.

Lemma isspace_lower_char c : PyStr.isspace (PyStr.lower_char c) = PyStr.isspace c.
Proof. by destruct c as [[] [] [] [] [] [] [] []]. Qed.

Lemma lower_char_idemp c :
  PyStr.lower_char (PyStr.lower_char c) = PyStr.lower_char c.
Proof. by destruct c as [[] [] [] [] [] [] [] []]. Qed.

Lemma lower_idemp s : PyStr.lower (PyStr.lower s) = PyStr.lower s.
Proof. induction s as [|c s IH]; [done|]. cbn. by rewrite lower_char_idemp, IH. Qed.

Lemma lstrip_lower s : PyStr.lstrip (PyStr.lower s) = PyStr.lower (PyStr.lstrip s).
Proof.
  induction s as [|c s IH]; [done|]. cbn.
  rewrite isspace_lower_char. by destruct (PyStr.isspace c).
Qed.

Lemma rstrip_lower s : PyStr.rstrip (PyStr.lower s) = PyStr.lower (PyStr.rstrip s).
Proof.
  induction s as [|c s IH]; [done|]. cbn. rewrite IH, isspace_lower_char.
  destruct (PyStr.rstrip s); cbn; [|done]. by destruct (PyStr.isspace c).
Qed.

Lemma strip_lower s : PyStr.strip (PyStr.lower s) = PyStr.lower (PyStr.strip s).
Proof. unfold PyStr.strip. by rewrite lstrip_lower, rstrip_lower. Qed.

Lemma rstrip_cons c s :
  PyStr.rstrip (String c s)
  = match PyStr.rstrip s with
    | EmptyString => if PyStr.isspace c then EmptyString else String c EmptyString
    | t => String c t
    end.
Proof. reflexivity. Qed.

Lemma rstrip_idemp s : PyStr.rstrip (PyStr.rstrip s) = PyStr.rstrip s.
Proof.
  induction s as [|c s IH]; [done|]. rewrite rstrip_cons.
  destruct (PyStr.rstrip s) as [|d r] eqn:Hr.
  - destruct (PyStr.isspace c) eqn:Hc; [done|]. cbn. by rewrite Hc.
  - by rewrite rstrip_cons, IH.
Qed.

(** Trimming on the right leaves the first character in place. *)
Lemma lstrip_rstrip_lstrip s :
  PyStr.lstrip (PyStr.rstrip (PyStr.lstrip s)) = PyStr.rstrip (PyStr.lstrip s).
Proof.
  induction s as [|c s IH]; [done|]. cbn [PyStr.lstrip].
  destruct (PyStr.isspace c) eqn:Hc; [done|].
  rewrite rstrip_cons. destruct (PyStr.rstrip s); rewrite ?Hc;
    cbn [PyStr.lstrip]; by rewrite Hc.
Qed.

Lemma strip_idemp s : PyStr.strip (PyStr.strip s) = PyStr.strip s.
Proof.
  unfold PyStr.strip. by rewrite lstrip_rstrip_lstrip, rstrip_idemp.
Qed.

Lemma answer_matches_strip a q :
  answer_matches (PyStr.strip a) q = answer_matches a q.
Proof. unfold answer_matches. by rewrite strip_idemp. Qed.

Lemma answer_matches_lower a q :
  answer_matches (PyStr.lower a) q = answer_matches a q.
Proof. unfold answer_matches. by rewrite strip_lower, lower_idemp. Qed.

Lemma count_correct_fmap (f : string → string) answers questions :
  (∀ a q, answer_matches (f a) q = answer_matches a q) →
  count_correct (f <$> answers) questions = count_correct answers questions.
Proof.
  intros Hf. unfold count_correct.
  match goal with |- foldl ?F _ _ = _ => set (G := F) end.
  assert (∀ n a q, G n (f a, q) = G n (a, q)) as HG
    by (intros; unfold G; cbn; by rewrite Hf).
  clearbody G. generalize 0.
  revert questions. induction answers as [|a answers IH]; intros [|q questions] n;
    try done.
  cbn. rewrite HG. apply IH.
Qed.

End Comparison.

(** X2: the score of a submission does not change when the answers are
    trimmed or put in lower case before they are sent. *)
Theorem count_correct_normalised (answers : list string)
    (questions : list QuestionModel) :
  count_correct (PyStr.strip <$> answers) questions
  = count_correct answers questions ∧
  count_correct (PyStr.lower <$> answers) questions
  = count_correct answers questions.
Proof.
  split; apply count_correct_fmap;
    auto using answer_matches_strip, answer_matches_lower.
Qed.

(** ** The Index after a reconciliation *)

Section IndexFacts.

Implicit Types (KB : QuestionBank) (col : list IndexEntry).

Lemma elem_of_entries_role r qs e :
  e ∈ entries_of_role r qs → m_role (e_meta e) = r.
Proof.
  intros He.
  assert (m_role (e_meta e) ∈ (λ e, m_role (e_meta e)) <$> entries_of_role r qs)
    as Hin by (apply list_elem_of_fmap; eauto).
  rewrite role_of_entries in Hin.
  by apply list_elem_of_fmap in Hin as [? [-> _]].
Qed.

Lemma population_roles KB e :
  e ∈ population KB → m_role (e_meta e) ∈ KB.*1.
Proof.
  unfold population. intros [[r qs] [He Hin]]%list_elem_of_bind.
  apply elem_of_entries_role in He as ->.
  apply list_elem_of_fmap. by exists (r, qs).
Qed.

Lemma elem_of_roles_of col e : e ∈ col → m_role (e_meta e) ∈ roles_of col.
Proof.
  intros He. unfold roles_of. apply elem_of_list_to_set, list_elem_of_fmap. eauto.
Qed.

(** What a completed reconciliation leaves, by the way it took. *)
Lemma setup_result KB client client' out :
  setup_knowledge_base KB client = Ok (client', out) →
  (repopulates KB client = true ∧ client' = Some (population KB)) ∨
  (repopulates KB client = false ∧ client' = client ∧ out = [MsgUpToDate]).
Proof.
  intros Hrun. destruct (repopulates KB client) eqn:Hrep; [left|right].
  - destruct (setup_repopulating _ _ Hrep) as [out0 Heq]. rewrite Heq in Hrun.
    destruct (Chroma.add_texts (population KB) []) as [col|e] eqn:Hadd; [|done].
    injection Hrun as <- _.
    by apply add_texts_empty_inv in Hadd as (-> & _ & _).
  - destruct client as [col|]; [|done].
    rewrite setup_up_to_date in Hrun by done. by injection Hrun as <- <-.
Qed.

Lemma entries_decode r qs :
  Forall (λ q, encodable (options q) = true) qs →
  (λ e, question_of_meta (e_meta e)) <$> entries_of_role r qs = qs.
Proof.
  intros Henc. unfold entries_of_role. rewrite fmap_imap.
  rewrite <-(list_fmap_id qs) at 2. rewrite <-(imap_const id).
  apply imap_ext. intros i q Hq. cbn. unfold question_of_meta. cbn.
  rewrite encodable_roundtrip; [by destruct q|].
  eapply Forall_forall in Henc; [done|]. by eapply list_elem_of_lookup_2.
Qed.

(** Every entry counts for exactly one key of a duplicate-free key list. *)
Lemma sum_indicator (keys : list string) (x : string) :
  NoDup keys → x ∈ keys →
  sum_list_with (λ r, if decide (x = r) then 1 else 0) keys = 1.
Proof.
  induction 1 as [|k keys Hk Hnd IH]; [by inversion 1|].
  cbn. intros [->|Hin]%elem_of_cons.
  - rewrite decide_True by done.
    assert (sum_list_with (λ r, if decide (k = r) then 1 else 0) keys = 0) as ->;
      [|done].
    clear IH Hnd. induction keys as [|k' keys IH]; [done|].
    apply not_elem_of_cons in Hk as [Hne Hk]. cbn.
    by rewrite decide_False, IH.
  - rewrite decide_False, IH; [done..|]. by intros ->.
Qed.

Lemma count_by_role_cons (keys : list string) e col :
  sum_list_with (λ r, length (Chroma.get_where_role r (e :: col))) keys
  = sum_list_with (λ r, if decide (m_role (e_meta e) = r) then 1 else 0) keys
    + sum_list_with (λ r, length (Chroma.get_where_role r col)) keys.
Proof.
  induction keys as [|k keys IH]; [done|]. cbn [sum_list_with]. rewrite IH.
  rewrite !get_where_role_length, filter_cons.
  destruct (decide (m_role (e_meta e) = k)); cbn [length]; lia.
Qed.

Lemma count_by_role (keys : list string) col :
  NoDup keys → Forall (λ e, m_role (e_meta e) ∈ keys) col →
  length col
  = sum_list_with (λ r, length (Chroma.get_where_role r col)) keys.
Proof.
  intros Hnd. induction 1 as [|e col He _ IH].
  - clear Hnd. induction keys as [|k keys IHk]; [done|]. cbn. exact IHk.
  - rewrite count_by_role_cons, sum_indicator, <-IH by done. done.
Qed.

Lemma bank_get_Some KB r qs :
  NoDup KB.*1 → (r, qs) ∈ KB → bank_get KB r = Some qs.
Proof. intros. unfold bank_get. by apply elem_of_list_to_map_1. Qed.

Lemma bank_get_is_Some KB r : r ∈ KB.*1 → is_Some (bank_get KB r).
Proof.
  intros Hr. unfold bank_get. apply not_eq_None_Some. intros Hn.
  by apply not_elem_of_list_to_map in Hn.
Qed.

Lemma setup_roles_Forall KB client client' out :
  setup_knowledge_base KB client = Ok (client', out) →
  ∃ col, client' = Some col ∧ Forall (λ e, m_role (e_meta e) ∈ KB.*1) col.
Proof.
  intros [[Hrep ->]|(Hrep & -> & _)]%setup_result.
  - eexists. split; [done|]. apply Forall_forall, population_roles.
  - destruct client as [col|]; [|done]. exists col. split; [done|].
    apply Forall_forall. intros e He. unfold repopulates in Hrep.
    apply orb_false_elim in Hrep as [Hr _].
    apply bool_decide_eq_false_1 in Hr. apply dec_stable in Hr.
    apply elem_of_roles_of in He. rewrite Hr in He.
    by apply elem_of_list_to_set in He.
Qed.

End IndexFacts.

(** X3: after a reconciliation that wrote the Index for a bank whose option
    lists the encoding returns unchanged, the sampler hands out, for a role
    of the bank, question records of that role in the bank, each at most as
    often as the bank lists it, and all of them once the count allows. *)
Theorem sample_returns_bank_questions (KNOWLEDGE_BASE : QuestionBank)
    (client : Chroma.client) (col : Chroma.collection) (out : list Msg)
    (r : string) (qs : list QuestionRecord) (num : Z) (draw : nat → nat) :
  NoDup KNOWLEDGE_BASE.*1 →
  setup_knowledge_base KNOWLEDGE_BASE client = Ok (Some col, out) →
  repopulates KNOWLEDGE_BASE client = true →
  (r, qs) ∈ KNOWLEDGE_BASE →
  Forall (λ q, encodable (options q) = true) qs →
  get_questions_for_role col r num draw ⊆+ qs ∧
  ((Z.of_nat (length qs) ≤ num)%Z →
   get_questions_for_role col r num draw ≡ₚ qs).
Proof.
  intros Hnd Hrun Hrep Hin Henc.
  apply setup_result in Hrun as [[_ [= ->]]|[Hrep' _]]; [|congruence].
  rewrite sample_of_entries. unfold sampled_entries.
  pose proof (filter_population _ _ qs Hnd Hin) as Hperm.
  pose proof (entries_decode r qs Henc) as Hdec.
  split.
  - trans ((λ e, question_of_meta (e_meta e)) <$> entries_of_role r qs);
      [|by rewrite Hdec].
    apply (fmap_submseteq (λ e, question_of_meta (e_meta e))).
    etrans; [apply slice_to_submseteq|]. by rewrite shuffle_perm, Hperm.
  - intros Hnum. rewrite slice_to_all.
    + by rewrite shuffle_perm, Hperm, Hdec.
    + rewrite shuffle_perm, Hperm. unfold entries_of_role.
      by rewrite length_imap.
Qed.

Lemma sample_returns_bank_questions_witness :
  get_questions_for_role (population Sample.bank) "Data Engineer" 2 (λ k, k + 1)
  ⊆+ [Sample.q_sql; Sample.q_etl; Sample.q_idx].
Proof.
  refine (proj1 (sample_returns_bank_questions Sample.bank None
                   (population Sample.bank)
                   [MsgNotFound; MsgPopulating; MsgPopulationComplete]
                   "Data Engineer" [Sample.q_sql; Sample.q_etl; Sample.q_idx]
                   2 (λ k, k + 1) _ _ _ _ _)).
  - compute_done.
  - vm_compute. reflexivity.
  - reflexivity.
  - compute_done.
  - repeat constructor.
Defined.

(** X4: when the roles found in the Index are not the roles of the bank,
    for instance after a role was removed from the bank, a reconciliation
    that completes has thrown the old Index away: the Index is the one
    written for the bank, with no entry left for a role outside the bank. *)
Theorem reconcile_rebuilds_on_role_change (KNOWLEDGE_BASE : QuestionBank)
    (col : Chroma.collection) (client' : Chroma.client) (out : list Msg) :
  roles_of col ≠ list_to_set KNOWLEDGE_BASE.*1 →
  setup_knowledge_base KNOWLEDGE_BASE (Some col) = Ok (client', out) →
  client' = Some (population KNOWLEDGE_BASE) ∧
  MsgRolesMismatch ∈ out ∧
  ∀ r, r ∉ KNOWLEDGE_BASE.*1 →
       Chroma.get_where_role r (population KNOWLEDGE_BASE) = [].
Proof.
  intros Hroles Hrun.
  assert (repopulates KNOWLEDGE_BASE (Some col) = true) as Hrep.
  { unfold repopulates. by rewrite bool_decide_eq_true_2. }
  pose proof Hrun as Hres.
  apply setup_result in Hres as [[_ ->]|[Hrep' _]]; [|congruence].
  split; [done|]. split; [|by intros; apply filter_population_absent].
  unfold setup_knowledge_base in Hrun. cbn in Hrun.
  rewrite roles_in_db_eq, bool_decide_eq_true_2 in Hrun by done. cbn in Hrun.
  destruct (Chroma.add_texts (population KNOWLEDGE_BASE) []); [|done].
  injection Hrun as _ <-. left.
Qed.

Lemma reconcile_rebuilds_on_role_change_witness :
  roles_of (population Sample.bank) ≠ list_to_set Sample.bank_v1.*1 ∧
  setup_knowledge_base Sample.bank_v1 (Some (population Sample.bank))
  = Ok (Some (population Sample.bank_v1),
        [MsgRolesMismatch; MsgPopulating; MsgPopulationComplete]) ∧
  Chroma.get_where_role "HR Manager" (population Sample.bank_v1) = [].
Proof.
  assert (roles_of (population Sample.bank) ≠ list_to_set Sample.bank_v1.*1)
    as Hroles by compute_done.
  assert (setup_knowledge_base Sample.bank_v1 (Some (population Sample.bank))
          = Ok (Some (population Sample.bank_v1),
                [MsgRolesMismatch; MsgPopulating; MsgPopulationComplete]))
    as Hrun by (vm_compute; reflexivity).
  split; [exact Hroles|]. split; [exact Hrun|].
  destruct (reconcile_rebuilds_on_role_change Sample.bank_v1 _ _ _ Hroles Hrun)
    as (_ & _ & Hgone).
  apply Hgone. compute_done.
Defined.

(** X5: whatever the store held before, after a reconciliation that
    completes the collection exists and every entry in it carries a role of
    the bank. *)
Theorem reconcile_roles_within_bank (KNOWLEDGE_BASE : QuestionBank)
    (client client' : Chroma.client) (out : list Msg) :
  setup_knowledge_base KNOWLEDGE_BASE client = Ok (client', out) →
  ∃ col, client' = Some col ∧
         ∀ e, e ∈ col → m_role (e_meta e) ∈ KNOWLEDGE_BASE.*1.
Proof.
  intros Hrun. destruct (setup_roles_Forall _ _ _ _ Hrun) as (col & -> & Hall).
  exists col. split; [done|]. by apply Forall_forall.
Qed.

Lemma reconcile_roles_within_bank_witness :
  ∃ col, Some (population Sample.bank_v1) = Some col ∧
         ∀ e, e ∈ col → m_role (e_meta e) ∈ Sample.bank_v2.*1.
Proof.
  apply (reconcile_roles_within_bank Sample.bank_v2
           (Some (population Sample.bank_v1)) _ [MsgUpToDate]).
  vm_compute. reflexivity.
Defined.

(** ** Health and per-role statistics *)

(** X6: after a reconciliation that completes, the health check answers,
    the statistics of every role of the bank are available, and the number
    of questions the health check reports is the sum, over the roles it
    lists, of the numbers the per-role statistics report as available. *)
Theorem health_total_is_sum_of_stats (KNOWLEDGE_BASE : QuestionBank)
    (client vector_store : Chroma.client) (out : list Msg) :
  NoDup KNOWLEDGE_BASE.*1 →
  setup_knowledge_base KNOWLEDGE_BASE client = Ok (vector_store, out) →
  ∃ h, health_check KNOWLEDGE_BASE vector_store = inr h ∧
    (∀ r, r ∈ h_available_roles h →
          ∃ s, get_role_stats KNOWLEDGE_BASE vector_store r = inr s) ∧
    h_total_questions_in_db h
    = sum_list_with
        (λ r, match get_role_stats KNOWLEDGE_BASE vector_store r with
              | inr s => rs_total_questions_available s
              | inl _ => 0
              end)
        (h_available_roles h).
Proof.
  intros Hnd Hrun.
  destruct (setup_roles_Forall _ _ _ _ Hrun) as (col & -> & Hroles).
  eexists. split; [reflexivity|]. cbn [h_available_roles h_total_questions_in_db].
  assert (∀ r, r ∈ KNOWLEDGE_BASE.*1 →
               get_role_stats KNOWLEDGE_BASE (Some col) r
               = inr (mkStats r (length (Chroma.get_where_role r col))
                        (length (default [] (bank_get KNOWLEDGE_BASE r)))))
    as Hstats.
  { intros r Hr. unfold get_role_stats.
    destruct (bank_get_is_Some _ _ Hr) as [qs ->]. by rewrite length_fmap. }
  split; [intros r Hr; rewrite Hstats by done; by eexists|].
  unfold Chroma.count.
  rewrite (count_by_role KNOWLEDGE_BASE.*1 col Hnd) by done.
  generalize (λ r (H : r ∈ KNOWLEDGE_BASE.*1), Hstats r H).
  generalize (KNOWLEDGE_BASE.*1) as keys. clear.
  induction keys as [|k keys IH]; intros Hk; [done|]. cbn [sum_list_with].
  rewrite (Hk k) by left. cbn. f_equal. apply IH.
  intros r Hr. apply Hk. by right.
Qed.

Lemma health_total_is_sum_of_stats_witness :
  ∃ h, health_check Sample.bank (Some (population Sample.bank)) = inr h ∧
       h_total_questions_in_db h = 4.
Proof.
  destruct (health_total_is_sum_of_stats Sample.bank None
              (Some (population Sample.bank))
              [MsgNotFound; MsgPopulating; MsgPopulationComplete])
    as (h & Hh & _ & Htotal).
  - compute_done.
  - vm_compute. reflexivity.
  - exists h. split; [exact Hh|]. rewrite Htotal.
    injection Hh as <-. vm_compute. reflexivity.
Defined.

(** X7: after a reconciliation that wrote the Index, the statistics of a
    role of the bank report as many questions available as the bank holds
    for the role. *)
Theorem stats_agree_after_rebuild (KNOWLEDGE_BASE : QuestionBank)
    (client vector_store : Chroma.client) (out : list Msg)
    (r : string) (qs : list QuestionRecord) :
  NoDup KNOWLEDGE_BASE.*1 →
  setup_knowledge_base KNOWLEDGE_BASE client = Ok (vector_store, out) →
  repopulates KNOWLEDGE_BASE client = true →
  (r, qs) ∈ KNOWLEDGE_BASE →
  get_role_stats KNOWLEDGE_BASE vector_store r
  = inr (mkStats r (length qs) (length qs)).
Proof.
  intros Hnd Hrun Hrep Hin.
  apply setup_result in Hrun as [[_ ->]|[Hrep' _]]; [|congruence].
  unfold get_role_stats. rewrite (bank_get_Some _ _ qs) by done.
  rewrite length_fmap, (filter_population _ _ qs) by done.
  unfold entries_of_role. by rewrite length_imap.
Qed.

Lemma stats_agree_after_rebuild_witness :
  get_role_stats Sample.bank (Some (population Sample.bank)) "Data Engineer"
  = inr (mkStats "Data Engineer" 3 3).
Proof.
  apply (stats_agree_after_rebuild Sample.bank None _
           [MsgNotFound; MsgPopulating; MsgPopulationComplete]
           "Data Engineer" [Sample.q_sql; Sample.q_etl; Sample.q_idx]).
  - compute_done.
  - vm_compute. reflexivity.
  - reflexivity.
  - compute_done.
Defined.

(** The statistics of a role after a reconciliation that kept an older
    Index: one question available, two in the bank. *)
Example stats_disagree_when_kept :
  setup_knowledge_base Sample.bank_v2 (Some (population Sample.bank_v1))
  = Ok (Some (population Sample.bank_v1), [MsgUpToDate]) ∧
  get_role_stats Sample.bank_v2 (Some (population Sample.bank_v1)) "Data Engineer"
  = inr (mkStats "Data Engineer" 1 2).
Proof. split; vm_compute; reflexivity. Qed.

(** ** Starting and submitting an assessment *)

Section Assessment.

Implicit Types (KB : QuestionBank) (vs : list IndexEntry).

(** The size of a sample, for a count that is not negative. *)
Lemma sample_length vs role num draw :
  (0 ≤ num)%Z →
  length (get_questions_for_role vs role num draw)
  = length (Chroma.get_where_role role vs) `min` Z.to_nat num.
Proof.
  intros Hnum. rewrite sample_of_entries, length_fmap. unfold sampled_entries.
  rewrite slice_to_length by done. by rewrite shuffle_perm.
Qed.

Lemma question_models_id (qs : list QuestionRecord) :
  (λ q, mkQuestion (question q) (options q) (answer q)) <$> qs = qs.
Proof.
  induction qs as [|[] qs IH]; [done|]. cbn. by rewrite IH.
Qed.

Lemma validate_num_questions_inv v n :
  validate_num_questions v = Ok n →
  n = default 10%Z v ∧ (1 ≤ n ≤ 50)%Z.
Proof.
  unfold validate_num_questions. destruct v as [m|]; [|intros [= <-]; cbn; lia].
  destruct (m <? 1)%Z eqn:H1; [done|]. destruct (50 <? m)%Z eqn:H2; [done|].
  intros [= <-]. cbn. lia.
Qed.

Lemma parse_assessment_inv KB body request :
  parse_assessment KB body = inr request →
  ab_role body ∈ KB.*1 ∧ ar_role request = ab_role body ∧
  ar_num_questions request = default 10%Z (ab_num_questions body) ∧
  (1 ≤ ar_num_questions request ≤ 50)%Z.
Proof.
  unfold parse_assessment, validate_role.
  case_bool_decide as Hr; cbn.
  - destruct (validate_num_questions (ab_num_questions body)) as [n|e] eqn:Hn;
      cbn; [|done].
    intros [= <-]. apply validate_num_questions_inv in Hn as [-> Hn]. by cbn.
  - by destruct (validate_num_questions (ab_num_questions body)).
Qed.

Lemma parse_assessment_error KB body e :
  parse_assessment KB body = inl e → status_of e = 422.
Proof.
  unfold parse_assessment.
  destruct (validate_role KB (ab_role body)),
    (validate_num_questions (ab_num_questions body)); cbn; by intros [= <-].
Qed.

(** All answers right: the count is the number of questions. *)
Lemma count_correct_own_answers (qs : list QuestionModel) :
  count_correct (answer <$> qs) qs = length qs.
Proof.
  rewrite count_correct_filter, filter_all.
  - rewrite length_zip, length_fmap. lia.
  - apply Forall_forall. intros [a q] Hin. cbn.
    apply elem_of_lookup_zip_with in Hin as (i & a' & q' & [= -> ->] & Ha & Hq).
    rewrite list_lookup_fmap, Hq in Ha. by injection Ha as <-.
Qed.

Lemma count_correct_le answers (qs : list QuestionModel) :
  count_correct answers qs ≤ length answers `min` length qs.
Proof.
  rewrite count_correct_filter. etrans; [apply length_filter|].
  by rewrite length_zip.
Qed.

End Assessment.

(** A body with a role of the bank and a count within 1..50 (10 when none
    is given) is accepted as it is. *)
Lemma parse_assessment_valid KB body :
  ab_role body ∈ KB.*1 →
  (1 ≤ default 10 (ab_num_questions body) ≤ 50)%Z →
  parse_assessment KB body
  = inr (mkAssessmentRequest (ab_role body)
           (default 10%Z (ab_num_questions body))).
Proof.
  intros Hr Hn. unfold parse_assessment, validate_role.
  rewrite bool_decide_eq_true_2 by done. unfold validate_num_questions.
  destruct (ab_num_questions body) as [m|]; [|done]. cbn in Hn.
  by rewrite (proj2 (Z.ltb_ge m 1)), (proj2 (Z.ltb_ge 50 m)) by lia.
Qed.

(** X8: what [POST /assessment/start] answers, by the request and the store.
    A body whose role is not a key of the bank or whose number of questions
    ([n], 10 when none is given) is outside 1..50 is refused with 422,
    whatever the store.  A valid body gets 503 while the store is not set;
    404 when the store has no entry of the role; and otherwise the sample of
    the role: [min(k, n)] questions for [k] indexed, at least 1 and at most
    50, counted by [total_questions]. *)
Theorem start_assessment_outcomes (KNOWLEDGE_BASE : QuestionBank)
    (vector_store : option Chroma.collection) (body : AssessmentBody)
    (draw : nat → nat) :
  let n := default 10%Z (ab_num_questions body) in
  let valid := ab_role body ∈ KNOWLEDGE_BASE.*1 ∧ (1 ≤ n ≤ 50)%Z in
  let k vs := length (Chroma.get_where_role (ab_role body) vs) in
  let response := post_assessment_start KNOWLEDGE_BASE vector_store body draw in
  (¬ valid → ∃ errors, response = inl (RequestValidationError errors))
  ∧ (valid → vector_store = None →
     response = inl (HTTPException 503 "Vector store not initialized"))
  ∧ (∀ vs, valid → vector_store = Some vs → k vs = 0 →
       response
       = inl (HTTPException 404
                ("No questions found for role: " +:+ ab_role body)))
  ∧ (∀ vs, valid → vector_store = Some vs → 0 < k vs →
       response
       = inr (mkAssessmentResponse (ab_role body)
                (get_questions_for_role vs (ab_role body) n draw)
                (k vs `min` Z.to_nat n))
       ∧ length (get_questions_for_role vs (ab_role body) n draw)
         = k vs `min` Z.to_nat n
       ∧ 1 ≤ k vs `min` Z.to_nat n ≤ 50).
Proof.
  intros n valid k response. subst response. unfold post_assessment_start.
  split; [|split; [|split]].
  - intros Hinv.
    destruct (parse_assessment KNOWLEDGE_BASE body) as [e|request] eqn:Hparse.
    + unfold parse_assessment in Hparse.
      destruct (validate_role KNOWLEDGE_BASE (ab_role body)),
        (validate_num_questions (ab_num_questions body));
        cbn in Hparse; [done|..]; injection Hparse as <-; by eexists.
    + apply parse_assessment_inv in Hparse as (Hr & _ & Hnum & Hrange).
      rewrite Hnum in Hrange. by destruct Hinv.
  - intros [Hr Hn] ->. by rewrite parse_assessment_valid.
  - intros vs [Hr Hn] -> Hk. rewrite parse_assessment_valid by done.
    unfold start_assessment. cbn [ar_role ar_num_questions]. fold n.
    assert (length (get_questions_for_role vs (ab_role body) n draw) = 0)
      as Hlen.
    { rewrite sample_length by lia. fold (k vs). lia. }
    by destruct (get_questions_for_role vs (ab_role body) n draw).
  - intros vs [Hr Hn] -> Hk. rewrite parse_assessment_valid by done.
    unfold start_assessment. cbn [ar_role ar_num_questions]. fold n.
    assert (length (get_questions_for_role vs (ab_role body) n draw)
            = k vs `min` Z.to_nat n) as Hlen by (apply sample_length; lia).
    split; [|split; [done|lia]].
    destruct (get_questions_for_role vs (ab_role body) n draw)
      as [|q qs] eqn:Hsample; [cbn [length] in Hlen; lia|].
    by rewrite question_models_id, Hlen.
Qed.

Lemma start_assessment_outcomes_witness :
  (∃ errors,
     post_assessment_start Sample.bank (Some Sample2.store)
       (mkAssessmentBody "Astronaut" (Some 5%Z)) (λ k, k + 1)
     = inl (RequestValidationError errors))
  ∧ (∃ errors,
       post_assessment_start Sample.bank None
         (mkAssessmentBody "Data Engineer" (Some 51%Z)) (λ k, k + 1)
       = inl (RequestValidationError errors))
  ∧ post_assessment_start Sample.bank None
      (mkAssessmentBody "Data Engineer" None) (λ k, k + 1)
    = inl (HTTPException 503 "Vector store not initialized")
  ∧ post_assessment_start Sample.bank (Some [])
      (mkAssessmentBody "Data Engineer" None) (λ k, k + 1)
    = inl (HTTPException 404 "No questions found for role: Data Engineer")
  ∧ post_assessment_start Sample.bank (Some Sample2.store)
      (mkAssessmentBody "Data Engineer" (Some 2%Z)) (λ k, k + 1)
    = inr (mkAssessmentResponse "Data Engineer" [Sample.q_idx; Sample.q_sql] 2).
Proof.
  split; [|split; [|split; [|split]]].
  - apply (proj1 (start_assessment_outcomes Sample.bank (Some Sample2.store)
                    (mkAssessmentBody "Astronaut" (Some 5%Z)) (λ k, k + 1))).
    intros [Hr _]. revert Hr. compute_done.
  - apply (proj1 (start_assessment_outcomes Sample.bank None
                    (mkAssessmentBody "Data Engineer" (Some 51%Z)) (λ k, k + 1))).
    intros [_ Hn]. cbn in Hn. lia.
  - apply (proj1 (proj2 (start_assessment_outcomes Sample.bank None
                           (mkAssessmentBody "Data Engineer" None) (λ k, k + 1)))).
    + split; [compute_done|cbn; lia].
    + reflexivity.
  - apply (proj1 (proj2 (proj2 (start_assessment_outcomes Sample.bank (Some [])
                           (mkAssessmentBody "Data Engineer" None) (λ k, k + 1))))
             []).
    + split; [compute_done|cbn; lia].
    + reflexivity.
    + reflexivity.
  - refine (proj1 (proj2 (proj2 (proj2
              (start_assessment_outcomes Sample.bank (Some Sample2.store)
                 (mkAssessmentBody "Data Engineer" (Some 2%Z)) (λ k, k + 1))))
              Sample2.store _ eq_refl _)).
    + split; [compute_done|cbn; lia].
    + vm_compute. lia.
Defined.

(** X9: whoever is served an assessment can score every question of it:
    sending back the questions with the answers that came along is accepted
    and scored [total_questions] out of [total_questions]. *)
Theorem echoed_answers_score_full (KNOWLEDGE_BASE : QuestionBank)
    (get_feedback : nat → nat → string → result string)
    (vector_store : Chroma.collection) (body : AssessmentBody)
    (draw : nat → nat) (resp : AssessmentResponse) :
  post_assessment_start KNOWLEDGE_BASE (Some vector_store) body draw = inr resp →
  ∃ result,
    post_assessment_submit KNOWLEDGE_BASE get_feedback
      (mkBody (as_role resp) (answer <$> as_questions resp) (as_questions resp))
    = inr result ∧
    rr_score result = as_total_questions resp ∧
    rr_total_questions result = as_total_questions resp.
Proof.
  intros Hstart. unfold post_assessment_start in Hstart.
  destruct (parse_assessment KNOWLEDGE_BASE body) as [e|request] eqn:Hparse;
    [done|].
  apply parse_assessment_inv in Hparse as (Hr & Hrole & _).
  unfold start_assessment in Hstart.
  destruct (get_questions_for_role _ _ _ _) as [|q qs]; [done|].
  rewrite question_models_id in Hstart.
  injection Hstart as <-. cbn [as_role as_questions as_total_questions].
  unfold post_assessment_submit.
  rewrite parse_submission_known_role by (cbn; by rewrite Hrole).
  unfold submit_assessment. eexists. split; [reflexivity|].
  cbn [rr_score rr_total_questions sr_answers sr_questions b_answers
         b_questions].
  by rewrite count_correct_own_answers.
Qed.

Lemma echoed_answers_score_full_witness :
  ∃ resp result,
    post_assessment_start Sample.bank (Some Sample2.store)
      (mkAssessmentBody "Data Engineer" (Some 2%Z)) (λ k, k + 1) = inr resp ∧
    post_assessment_submit Sample.bank Sample.llm_down
      (mkBody (as_role resp) (answer <$> as_questions resp) (as_questions resp))
    = inr result ∧
    rr_score result = 2 ∧ rr_total_questions result = 2.
Proof.
  assert (post_assessment_start Sample.bank (Some Sample2.store)
            (mkAssessmentBody "Data Engineer" (Some 2%Z)) (λ k, k + 1)
          = inr (mkAssessmentResponse "Data Engineer"
                   [Sample.q_idx; Sample.q_sql] 2)) as Hstart
    by (vm_compute; reflexivity).
  destruct (echoed_answers_score_full Sample.bank Sample.llm_down _ _ _ _ Hstart)
    as (result & Hsubmit & Hscore & Htotal).
  eexists _, result. split; [exact Hstart|]. split; [exact Hsubmit|].
  split; [exact Hscore|exact Htotal].
Defined.

(** X10: the score of an accepted submission never exceeds the number of
    answers, nor [total_questions]. *)
Theorem score_at_most_total (KNOWLEDGE_BASE : QuestionBank)
    (get_feedback : nat → nat → string → result string)
    (body : SubmissionBody) (resp : ResultResponse) :
  post_assessment_submit KNOWLEDGE_BASE get_feedback body = inr resp →
  rr_score resp ≤ rr_total_questions resp ∧
  rr_score resp ≤ length (b_answers body) `min` length (b_questions body).
Proof.
  intros Hpost. apply post_assessment_submit_inv in Hpost.
  unfold submit_assessment in Hpost. injection Hpost as <-.
  cbn [rr_score rr_total_questions sr_answers sr_questions].
  pose proof (count_correct_le (b_answers body) (b_questions body)). lia.
Qed.

Lemma score_at_most_total_witness :
  ∃ resp,
    post_assessment_submit Sample.bank Sample.llm_down
      (mkBody "HR Manager" ["A"; "B"; "C"] [Sample.qA; Sample.qB]) = inr resp ∧
    rr_score resp ≤ rr_total_questions resp.
Proof.
  destruct (post_assessment_submit Sample.bank Sample.llm_down
              (mkBody "HR Manager" ["A"; "B"; "C"] [Sample.qA; Sample.qB]))
    as [e|resp] eqn:Hpost; [vm_compute in Hpost; discriminate|].
  exists resp. split; [reflexivity|].
  exact (proj1 (score_at_most_total Sample.bank Sample.llm_down _ _ Hpost)).
Defined.

(** X11: a negative count is read as Python reads a negative slice bound:
    the sampler drops that many records from the end of the shuffled list,
    and returns none once the count reaches the number indexed. *)
Theorem sample_negative_count (vector_store : Chroma.collection)
    (role : string) (num : Z) (draw : nat → nat) :
  (num < 0)%Z →
  length (get_questions_for_role vector_store role num draw)
  = length (Chroma.get_where_role role vector_store) - Z.to_nat (- num).
Proof.
  intros Hnum. rewrite sample_of_entries, length_fmap.
  unfold sampled_entries, slice_to.
  rewrite (proj2 (Z.leb_gt 0 num)) by done.
  rewrite length_take, shuffle_perm. lia.
Qed.

Lemma sample_negative_count_witness :
  length (get_questions_for_role Sample2.store "Data Engineer" (-1) (λ k, k))
  = 2.
Proof.
  rewrite (sample_negative_count Sample2.store "Data Engineer" (-1) (λ k, k));
    [reflexivity|lia].
Defined.

(** ** The session UI *)

Section Session.

Variable vector_store : Chroma.collection.

Implicit Types (st : SessionState) (w : Widgets).
Implicit Types (get_feedback : nat → nat → string → result string).

Lemma ui_score_le (ua : gmap nat string) qs : ui_score ua qs ≤ length qs.
Proof.
  rewrite ui_score_filter. etrans; [apply length_filter|].
  by rewrite length_imap.
Qed.

Lemma page_score_le st :
  ss_score st ≤ length (ss_questions st) → page_score st ≤ length (ss_questions st).
Proof.
  intros Hs. unfold page_score.
  destruct ((ss_score st =? 0) && _); [apply ui_score_le|done].
Qed.

(** Storing the score and computing it again gives the same score. *)
Lemma page_score_stable st fb :
  page_score (mkSession (ss_test_started st) (ss_questions st)
                (ss_current_question st) (ss_user_answers st) (page_score st)
                fb (ss_selected_role st))
  = page_score st.
Proof.
  unfold page_score. cbn.
  destruct (ss_score st =? 0) eqn:Hs; cbn.
  - destruct (negb (bool_decide (ss_user_answers st = ∅))) eqn:Hua; cbn.
    + by destruct (ui_score _ _ =? 0).
    + rewrite andb_false_r. done.
  - by rewrite Hs.
Qed.

Lemma final_page_eq get_feedback st :
  final_page get_feedback st
  = (feedback ←
       (if bool_decide (ss_feedback st = "")
        then get_feedback (page_score st) (length (ss_questions st))
               (ss_selected_role st)
        else Ok (ss_feedback st));
     Ok (mkSession (ss_test_started st) (ss_questions st)
           (ss_current_question st) (ss_user_answers st) (page_score st)
           feedback (ss_selected_role st))).
Proof. reflexivity. Qed.

Lemma final_page_state_eq get_feedback st :
  final_page_state get_feedback st
  = let st1 := mkSession (ss_test_started st) (ss_questions st)
                 (ss_current_question st) (ss_user_answers st) (page_score st)
                 (ss_feedback st) (ss_selected_role st) in
    if bool_decide (ss_feedback st = "")
    then match get_feedback (page_score st) (length (ss_questions st))
                 (ss_selected_role st) with
         | Ok text =>
             (mkSession (ss_test_started st) (ss_questions st)
                (ss_current_question st) (ss_user_answers st) (page_score st)
                text (ss_selected_role st), None)
         | Raise e => (st1, Some e)
         end
    else (st1, None).
Proof. reflexivity. Qed.

(** The two readings of the final page agree. *)
Lemma final_page_state_ok get_feedback st st1 :
  final_page get_feedback st = Ok st1 ↔
  final_page_state get_feedback st = (st1, None).
Proof.
  rewrite final_page_eq, final_page_state_eq. cbn.
  case_bool_decide as Hf; cbn.
  - destruct (get_feedback _ _ _) as [text|e]; cbn; [|done].
    split; by intros [= <-].
  - split; by intros [= <-].
Qed.

(** What the final page leaves of the state it found. *)
Lemma final_page_state_fields get_feedback st st1 err :
  final_page_state get_feedback st = (st1, err) →
  ss_test_started st1 = ss_test_started st ∧
  ss_questions st1 = ss_questions st ∧
  ss_current_question st1 = ss_current_question st ∧
  ss_user_answers st1 = ss_user_answers st ∧
  ss_score st1 = page_score st.
Proof.
  rewrite final_page_state_eq. cbn.
  destruct (bool_decide (ss_feedback st = "")).
  - destruct (get_feedback _ _ _); by intros [= <- <-].
  - by intros [= <- <-].
Qed.

Lemma session_ok_initial : session_ok initial_state.
Proof.
  unfold session_ok, initial_state. cbn. split_and!; try done; lia.
Qed.

Lemma session_ok_step get_feedback draw st w :
  session_ok st →
  session_ok (run_script vector_store get_feedback draw st w).1.
Proof.
  intros Hok. pose proof Hok as (Hcur & Hlen & Hne & Hans & Hscore).
  unfold run_script.
  destruct (ss_test_started st) eqn:Hstarted; cbn [negb].
  - destruct (ss_current_question st <? length (ss_questions st)) eqn:Hlt.
    + apply Nat.ltb_lt in Hlt.
      set (user_choice := _ ≫= _).
      set (st1 := match user_choice with Some _ => _ | None => _ end).
      assert (ss_questions st1 = ss_questions st ∧
              ss_test_started st1 = true ∧
              ss_current_question st1 = ss_current_question st ∧
              ss_score st1 = ss_score st ∧
              ∀ i c, ss_user_answers st1 !! i = Some c →
                c ≠ "" ∧ ∃ q, ss_questions st !! i = Some q ∧ c ∈ options q)
        as (Hq1 & Hs1 & Hc1 & Hsc1 & Hans1).
      { subst st1. destruct user_choice as [c|] eqn:Hchoice; [|done].
        case_bool_decide as Hempty; [done|]. cbn. split_and!; try done.
        intros i c'. rewrite lookup_insert_Some.
        intros [[<- <-]|[_ Hold]]; [|by apply Hans].
        split; [done|]. subst user_choice.
        destruct (ss_questions st !! ss_current_question st) as [q|]; [|done].
        cbn in Hchoice. destruct (w_user_choice w) as [idx|]; [|done].
        cbn in Hchoice. exists q. split; [done|].
        by eapply list_elem_of_lookup_2. }
      assert (∀ n, n ≤ length (ss_questions st) →
                   session_ok (set_current_question st1 n)) as Hset.
      { intros n Hn. unfold session_ok. cbn. rewrite Hq1, Hs1, Hsc1.
        split_and!; try done; intros _; by apply Hne. }
      assert (session_ok st1) as Hok1.
      { unfold session_ok. rewrite Hq1, Hs1, Hc1, Hsc1.
        split_and!; try done; intros _; by apply Hne. }
      clearbody st1. rewrite Hq1.
      destruct ((0 <? ss_current_question st) && w_previous w);
        [apply Hset; lia|].
      destruct (ss_current_question st <? length (ss_questions st) - 1).
      * destruct (w_next w); [apply Hset; lia|exact Hok1].
      * destruct (w_submit w); [apply Hset; lia|exact Hok1].
    + destruct (final_page_state get_feedback st) as [st1 err] eqn:Hfinal.
      apply final_page_state_fields in Hfinal as (Hs1 & Hq1 & Hc1 & Hua1 & Hsc1).
      assert (∀ b, session_ok (set_test_started st1 b)) as Hset.
      { intros b. unfold session_ok. cbn. rewrite Hq1, Hc1, Hua1, Hsc1.
        split_and!; try done; first [by apply page_score_le|by intros _; apply Hne]. }
      assert (session_ok st1) as Hok1.
      { unfold session_ok. rewrite Hs1, Hq1, Hc1, Hua1, Hsc1.
        split_and!; try done; first [by apply page_score_le|by rewrite Hstarted]. }
      destruct err; [exact Hok1|].
      destruct (w_restart w); [apply Hset|exact Hok1].
  - destruct (w_start w); [|exact Hok].
    pose proof (sample_length vector_store (w_selected_role w) 10 draw) as Hsl.
    destruct (get_questions_for_role vector_store (w_selected_role w) 10 draw)
      as [|q qs] eqn:Hsample; [exact Hok|].
    unfold session_ok. cbn [fst ss_current_question ss_questions
      ss_test_started ss_user_answers ss_score].
    split_and!; try done; lia.
Qed.

End Session.

(** X12: whatever the user does and whatever the service answers, the
    session state keeps that the current question is at most the number of
    questions, that there are at most 10 questions and at least one while a
    test runs, that every recorded answer is a non-empty option of the
    question it is recorded for, and that the score is at most the number of
    questions. *)
Theorem session_invariant (vector_store : Chroma.collection)
    (runs : list ((nat → nat → string → result string) * (nat → nat) * Widgets)) :
  session_ok (session_after vector_store runs).
Proof.
  unfold session_after.
  induction runs as [|r runs IH] using rev_ind; [apply session_ok_initial|].
  rewrite foldl_app. cbn [foldl]. by apply session_ok_step.
Qed.

Lemma session_invariant_witness :
  session_ok
    (session_after Sample2.store
       [(Sample2.llm_ok, (λ k, k + 1),
         mkWidgets "Data Engineer" true None false false false false);
        (Sample2.llm_ok, (λ k, k),
         mkWidgets "Data Engineer" false (Some 0) false true false false)]) ∧
  ss_current_question
    (session_after Sample2.store
       [(Sample2.llm_ok, (λ k, k + 1),
         mkWidgets "Data Engineer" true None false false false false);
        (Sample2.llm_ok, (λ k, k),
         mkWidgets "Data Engineer" false (Some 0) false true false false)]) = 1.
Proof. split; [apply session_invariant|reflexivity]. Defined.

(** X13: the feedback is generated once: when the final page has stored a
    non-empty feedback text, showing the page again leaves the session state
    as it is, whatever the text generation service would answer now. *)
Theorem final_page_cached
    (get_feedback get_feedback' : nat → nat → string → result string)
    (st st1 : SessionState) :
  final_page get_feedback st = Ok st1 →
  ss_feedback st1 ≠ "" →
  final_page get_feedback' st1 = Ok st1.
Proof.
  rewrite final_page_eq. intros Hrun Hfb.
  destruct (if bool_decide (ss_feedback st = "") then _ else _) as [fb|e];
    [|done].
  cbn in Hrun. injection Hrun as <-. cbn in Hfb.
  rewrite final_page_eq. cbn.
  rewrite bool_decide_eq_false_2 by done. cbn.
  by rewrite (page_score_stable st fb).
Qed.

Lemma final_page_cached_witness :
  final_page Sample2.llm_ok Sample2.session_done
  = Ok (mkSession true [Sample.q_sql; Sample.q_etl] 2
          {[0 := "WHERE"; 1 := "Evaluate, Test, Launch"]} 1 "Solid basics."
          "Data Engineer") ∧
  final_page Sample.llm_down
    (mkSession true [Sample.q_sql; Sample.q_etl] 2
       {[0 := "WHERE"; 1 := "Evaluate, Test, Launch"]} 1 "Solid basics."
       "Data Engineer")
  = Ok (mkSession true [Sample.q_sql; Sample.q_etl] 2
          {[0 := "WHERE"; 1 := "Evaluate, Test, Launch"]} 1 "Solid basics."
          "Data Engineer").
Proof.
  assert (final_page Sample2.llm_ok Sample2.session_done
          = Ok (mkSession true [Sample.q_sql; Sample.q_etl] 2
                  {[0 := "WHERE"; 1 := "Evaluate, Test, Launch"]} 1
                  "Solid basics." "Data Engineer")) as Hrun
    by (vm_compute; reflexivity).
  split; [exact Hrun|].
  apply (final_page_cached Sample2.llm_ok Sample.llm_down _ _ Hrun).
  discriminate.
Defined.

Section UiScore.

Lemma indices_of_enumerate {X} (l : list X) :
  (imap pair l).*1 = seq 0 (length l).
Proof.
  rewrite fmap_imap, <-(list_fmap_id (seq 0 (length l))), <-(imap_seq_0 l id).
  by apply imap_ext.
Qed.

Lemma NoDup_length_le_size (l : list nat) (X : gset nat) :
  NoDup l → (∀ x, x ∈ l → x ∈ X) → length l ≤ size X.
Proof.
  intros Hnd Hin. apply (submseteq_length l (elements X)).
  apply NoDup_submseteq; [done|]. intros x Hx. by apply elem_of_elements, Hin.
Qed.

End UiScore.

(** X14: the score of the session UI counts answered questions only: it is
    at most the number of questions and at most the number of recorded
    answers, and it is the number of questions when the recorded answer of
    every question is its stored answer. *)
Theorem ui_score_bounds (user_answers : gmap nat string)
    (questions : list QuestionRecord) :
  ui_score user_answers questions ≤ length questions ∧
  ui_score user_answers questions ≤ size user_answers ∧
  ((∀ i q, questions !! i = Some q → user_answers !! i = Some (answer q)) →
   ui_score user_answers questions = length questions).
Proof.
  split; [apply ui_score_le|]. rewrite ui_score_filter. split.
  - rewrite <-size_dom, <-(length_fmap fst).
    apply NoDup_length_le_size.
    + eapply sublist_NoDup; [|apply fmap_sublist, sublist_filter; apply _].
      rewrite indices_of_enumerate. apply NoDup_seq.
    + intros i [[i' q] [-> [Hp _]%list_elem_of_filter]]%list_elem_of_fmap.
      cbn in *. apply elem_of_dom. eauto.
  - intros Hall. rewrite filter_all; [by rewrite length_imap|].
    apply Forall_forall.
    intros [i q] (i' & q' & [= -> ->] & Hq)%elem_of_lookup_imap_1.
    cbn. by apply Hall.
Qed.

Lemma ui_score_bounds_witness :
  ui_score {[0 := "WHERE"; 1 := "Extract, Transform, Load"]}
    [Sample.q_sql; Sample.q_etl] = 2.
Proof.
  apply (ui_score_bounds {[0 := "WHERE"; 1 := "Extract, Transform, Load"]}
           [Sample.q_sql; Sample.q_etl]).
  intros [|[|i]] q; cbn; intros [= <-]; reflexivity.
Defined.

(** A run on a question page on which no option is picked. *)
Lemma run_question_no_choice (vector_store : Chroma.collection)
    (get_feedback : nat → nat → string → result string) (draw : nat → nat)
    qs cur ua sc fb rl role prev next submit :
  cur < length qs →
  run_script vector_store get_feedback draw (mkSession true qs cur ua sc fb rl)
    (mkWidgets role false None prev next submit false)
  = if (0 <? cur) && prev
    then (mkSession true qs (cur - 1) ua sc fb rl, Rerun)
    else if cur <? length qs - 1
         then if next
              then (mkSession true qs (cur + 1) ua sc fb rl, Rerun)
              else (mkSession true qs cur ua sc fb rl, Done)
         else if submit
              then (mkSession true qs (cur + 1) ua sc fb rl, Rerun)
              else (mkSession true qs cur ua sc fb rl, Done).
Proof.
  intros Hlt. unfold run_script.
  cbn [ss_test_started ss_current_question ss_questions negb w_user_choice
         w_previous w_next w_submit].
  rewrite (proj2 (Nat.ltb_lt _ _) Hlt). by destruct (qs !! cur).
Qed.

(** X15: stepping forward and back. From a question that is not the last,
    pressing Next without a choice shows the following question, pressing
    Previous there shows the first one again, and the session state is then
    what it was: the recorded answers survive the navigation. *)
Theorem next_then_previous (vector_store : Chroma.collection)
    (get_feedback : nat → nat → string → result string) (draw : nat → nat)
    (st : SessionState) (role : string) :
  ss_test_started st = true →
  ss_current_question st + 1 < length (ss_questions st) →
  interact vector_store get_feedback draw st
    (mkWidgets role false None false true false false)
  = (set_current_question st (ss_current_question st + 1), Done) ∧
  interact vector_store get_feedback draw
    (set_current_question st (ss_current_question st + 1))
    (mkWidgets role false None true false false false)
  = (st, Done).
Proof.
  destruct st as [started qs cur ua sc fb rl].
  cbn [ss_test_started ss_current_question ss_questions]. intros -> Hlt.
  unfold interact, set_current_question, idle.
  cbn [ss_test_started ss_current_question ss_questions ss_user_answers
         ss_score ss_feedback ss_selected_role w_selected_role].
  rewrite !run_question_no_choice by lia.
  rewrite andb_false_r, andb_true_r.
  rewrite (proj2 (Nat.ltb_lt cur (length qs - 1))) by lia.
  rewrite (proj2 (Nat.ltb_lt 0 (cur + 1))) by lia.
  rewrite !run_question_no_choice by lia.
  replace (cur + 1 - 1) with cur by lia.
  rewrite !andb_false_r.
  split; by repeat destruct (_ <? _).
Qed.

Lemma next_then_previous_witness :
  interact Sample2.store Sample.llm_down (λ k, k) Sample2.session_q1
    (mkWidgets "Data Engineer" false None false true false false)
  = (set_current_question Sample2.session_q1 2, Done) ∧
  interact Sample2.store Sample.llm_down (λ k, k)
    (set_current_question Sample2.session_q1 2)
    (mkWidgets "Data Engineer" false None true false false false)
  = (Sample2.session_q1, Done).
Proof.
  apply (next_then_previous Sample2.store Sample.llm_down (λ k, k)
           Sample2.session_q1 "Data Engineer"); [reflexivity|cbn; lia].
Defined.

(** X16: scoring and feedback belong to the final page alone. Before a test
    is started and on every question page, a run of the script does not
    depend on the text generation service; and a run on a question page
    leads to the final page only from the last question, by Submit. *)
Theorem final_page_only_by_submit (vector_store : Chroma.collection)
    (get_feedback get_feedback' : nat → nat → string → result string)
    (draw : nat → nat) (st : SessionState) (w : Widgets) :
  (ss_test_started st = false ∨
   ss_current_question st < length (ss_questions st)) →
  run_script vector_store get_feedback draw st w
  = run_script vector_store get_feedback' draw st w ∧
  (ss_test_started st = true →
   ss_current_question (run_script vector_store get_feedback draw st w).1
   = length (ss_questions (run_script vector_store get_feedback draw st w).1) →
   ss_current_question st + 1 = length (ss_questions st) ∧
   w_submit w = true ∧
   (run_script vector_store get_feedback draw st w).2 = Rerun).
Proof.
  intros Hpage. unfold run_script.
  destruct (ss_test_started st) eqn:Hstarted; cbn [negb].
  - destruct Hpage as [|Hlt]; [done|].
    rewrite (proj2 (Nat.ltb_lt _ _) Hlt). split; [done|]. intros _.
    set (st1 := match _ ≫= _ with Some _ => _ | None => _ end).
    assert (ss_questions st1 = ss_questions st ∧
            ss_current_question st1 = ss_current_question st) as [Hq Hc].
    { subst st1. destruct (_ ≫= _); [|done]. by case_bool_decide. }
    clearbody st1.
    destruct ((0 <? ss_current_question st) && w_previous w).
    { cbn. rewrite Hq. lia. }
    rewrite Hq.
    destruct (ss_current_question st <? length (ss_questions st) - 1) eqn:Hlast.
    + apply Nat.ltb_lt in Hlast.
      destruct (w_next w); cbn; rewrite ?Hq, ?Hc; lia.
    + apply Nat.ltb_ge in Hlast.
      destruct (w_submit w); cbn; rewrite ?Hq, ?Hc; [|lia].
      intros _. split_and!; [lia|done..].
  - split; [done|]. done.
Qed.

Lemma final_page_only_by_submit_witness :
  run_script Sample2.store Sample2.llm_ok (λ k, k)
    (set_current_question Sample2.session_q1 2)
    (mkWidgets "Data Engineer" false (Some 1) false false true false)
  = (mkSession true [Sample.q_sql; Sample.q_etl; Sample.q_idx] 3
       {[0 := "WHERE"; 2 := "No"]} 0 "" "Data Engineer", Rerun) ∧
  run_script Sample2.store Sample2.llm_ok (λ k, k)
    (set_current_question Sample2.session_q1 2)
    (mkWidgets "Data Engineer" false (Some 1) false false true false)
  = run_script Sample2.store Sample.llm_down (λ k, k)
      (set_current_question Sample2.session_q1 2)
      (mkWidgets "Data Engineer" false (Some 1) false false true false).
Proof.
  split; [vm_compute; reflexivity|].
  apply (final_page_only_by_submit Sample2.store Sample2.llm_ok Sample.llm_down).
  right. cbn. lia.
Defined.

(** X17: when the text generation fails on the final page, the session
    keeps the score and no feedback, so that the next run of the page asks
    the service again, for the same score, and stores its answer. *)
Theorem final_page_retries
    (get_feedback get_feedback' : nat → nat → string → result string)
    (st st1 : SessionState) (e : exn) (text : string) :
  final_page_state get_feedback st = (st1, Some e) →
  get_feedback' (page_score st) (length (ss_questions st))
    (ss_selected_role st) = Ok text →
  ss_feedback st1 = "" ∧
  ss_score st1 = page_score st ∧
  final_page_state get_feedback' st1
  = (mkSession (ss_test_started st) (ss_questions st) (ss_current_question st)
       (ss_user_answers st) (page_score st) text (ss_selected_role st), None).
Proof.
  rewrite final_page_state_eq. cbn. intros Hrun Hok.
  case_bool_decide as Hfb; [|done].
  destruct (get_feedback _ _ _) as [t|e']; [done|].
  injection Hrun as <- <-. split; [done|]. split; [done|].
  rewrite final_page_state_eq. cbn.
  rewrite (page_score_stable st (ss_feedback st)), Hfb.
  rewrite bool_decide_eq_true_2 by done. by rewrite Hok.
Qed.

Lemma final_page_retries_witness :
  final_page_state Sample.llm_down Sample2.session_done
  = (mkSession true [Sample.q_sql; Sample.q_etl] 2
       {[0 := "WHERE"; 1 := "Evaluate, Test, Launch"]} 1 "" "Data Engineer",
     Some (ExternalError "503 Service Unavailable")) ∧
  final_page_state Sample2.llm_ok
    (mkSession true [Sample.q_sql; Sample.q_etl] 2
       {[0 := "WHERE"; 1 := "Evaluate, Test, Launch"]} 1 "" "Data Engineer")
  = (mkSession true [Sample.q_sql; Sample.q_etl] 2
       {[0 := "WHERE"; 1 := "Evaluate, Test, Launch"]} 1 "Solid basics."
       "Data Engineer", None).
Proof.
  assert (final_page_state Sample.llm_down Sample2.session_done
          = (mkSession true [Sample.q_sql; Sample.q_etl] 2
               {[0 := "WHERE"; 1 := "Evaluate, Test, Launch"]} 1 ""
               "Data Engineer",
             Some (ExternalError "503 Service Unavailable"))) as Hrun
    by (vm_compute; reflexivity).
  split; [exact Hrun|].
  exact (proj2 (proj2 (final_page_retries Sample.llm_down Sample2.llm_ok
                         _ _ _ "Solid basics." Hrun eq_refl))).
Defined.

(** X18: a new test starts clean. Pressing Restart on the final page shows
    the start page; pressing Start there for a role with indexed questions
    shows the first question of a fresh sample of at most 10 questions, with
    no recorded answer, score 0 and no feedback left from the test before. *)
Theorem restart_then_start (vector_store : Chroma.collection)
    (get_feedback : nat → nat → string → result string)
    (draw draw' : nat → nat) (st st1 : SessionState) (role : string) :
  ss_test_started st = true →
  length (ss_questions st) ≤ ss_current_question st →
  final_page get_feedback st = Ok st1 →
  Chroma.get_where_role role vector_store ≠ [] →
  interact vector_store get_feedback draw st
    (mkWidgets role false None false false false true)
  = (set_test_started st1 false, Done) ∧
  interact vector_store get_feedback draw' (set_test_started st1 false)
    (mkWidgets role true None false false false false)
  = (mkSession true (get_questions_for_role vector_store role 10 draw') 0 ∅ 0
       "" role, Done) ∧
  1 ≤ length (get_questions_for_role vector_store role 10 draw') ≤ 10.
Proof.
  intros Hstarted Hcur Hfinal Hrole.
  apply final_page_state_ok in Hfinal.
  assert (1 ≤ length (get_questions_for_role vector_store role 10 draw') ≤ 10)
    as Hlen.
  { rewrite sample_length by lia.
    destruct (Chroma.get_where_role role vector_store); [done|]. cbn [length]. lia. }
  split; [|split; [|done]].
  - unfold interact. unfold run_script at 1. rewrite Hstarted. cbn [negb].
    rewrite (proj2 (Nat.ltb_ge _ _) Hcur), Hfinal. cbn [w_restart].
    unfold run_script, idle. reflexivity.
  - unfold interact. unfold run_script at 1.
    cbn [ss_test_started set_test_started negb w_start w_selected_role].
    destruct (get_questions_for_role vector_store role 10 draw') as [|q qs] eqn:Hs;
      [cbn in Hlen; lia|].
    unfold idle. rewrite run_question_no_choice by (cbn; lia).
    cbn. by destruct (length qs).
Qed.

Lemma restart_then_start_witness :
  interact Sample2.store Sample2.llm_ok (λ k, k) Sample2.session_done
    (mkWidgets "HR Manager" false None false false false true)
  = (mkSession false [Sample.q_sql; Sample.q_etl] 2
       {[0 := "WHERE"; 1 := "Evaluate, Test, Launch"]} 1 "Solid basics."
       "Data Engineer", Done) ∧
  interact Sample2.store Sample2.llm_ok (λ k, k)
    (mkSession false [Sample.q_sql; Sample.q_etl] 2
       {[0 := "WHERE"; 1 := "Evaluate, Test, Launch"]} 1 "Solid basics."
       "Data Engineer")
    (mkWidgets "HR Manager" true None false false false false)
  = (mkSession true [Sample.q_hr] 0 ∅ 0 "" "HR Manager", Done).
Proof.
  assert (final_page Sample2.llm_ok Sample2.session_done
          = Ok (mkSession true [Sample.q_sql; Sample.q_etl] 2
                  {[0 := "WHERE"; 1 := "Evaluate, Test, Launch"]} 1
                  "Solid basics." "Data Engineer")) as Hfinal
    by (vm_compute; reflexivity).
  assert (length (ss_questions Sample2.session_done)
          ≤ ss_current_question Sample2.session_done) as Hcur by (cbn; lia).
  assert (Chroma.get_where_role "HR Manager" Sample2.store ≠ []) as Hrole
    by discriminate.
  destruct (restart_then_start Sample2.store Sample2.llm_ok (λ k, k) (λ k, k)
              Sample2.session_done _ "HR Manager" eq_refl Hcur Hfinal Hrole)
    as (H1 & H2 & _).
  split; [exact H1|]. etrans; [exact H2|]. vm_compute. reflexivity.
Defined.

(** X19: for a bank with at least one question whose role names stay
    pairwise distinct once their spaces are replaced by underscores, the
    reconciliation completes from every state of the store, and leaves an
    Index that exists and is not empty. *)
Theorem reconcile_completes (KNOWLEDGE_BASE : QuestionBank)
    (client : Chroma.client) :
  NoDup (PyStr.replace " " "_" <$> KNOWLEDGE_BASE.*1) →
  population KNOWLEDGE_BASE ≠ [] →
  ∃ col out,
    setup_knowledge_base KNOWLEDGE_BASE client = Ok (Some col, out) ∧ col ≠ [].
Proof.
  intros Hnd Hne. destruct (repopulates KNOWLEDGE_BASE client) eqn:Hrep.
  - destruct (setup_repopulating _ _ Hrep) as [out0 ->].
    rewrite add_texts_empty_ok; [by eexists _, _|done|].
    by apply population_ids_NoDup.
  - destruct client as [col|]; [|done].
    rewrite setup_up_to_date by done. eexists _, _. split; [done|].
    unfold repopulates in Hrep. apply orb_false_elim in Hrep as [_ Hc].
    by apply bool_decide_eq_false_1 in Hc.
Qed.

Lemma reconcile_completes_witness :
  ∃ col out,
    setup_knowledge_base Sample.bank (Some (population Sample.bank_v1))
    = Ok (Some col, out) ∧ col ≠ [].
Proof.
  apply (reconcile_completes Sample.bank (Some (population Sample.bank_v1)));
    [compute_done|discriminate].
Defined.
